(** * Magic Notes: the note store and its view controller

    A shallow embedding of [app.js] (and of the second copy of the
    controller, the file that adds the confirmation dialogs and the
    "delete all" visibility rule), with the properties of the
    specification stated over it.

    Layout:
    - [JsString]: JavaScript strings as sequences of UTF-16 code units, with
      the three [String.prototype] methods the program calls;
    - [Json]: the host's [JSON.stringify] on arrays of notes and [JSON.parse]
      on arbitrary text;
    - [World], the monad [M], and the program's functions, in the order of
      the source;
    - the properties. *)

From Stdlib Require Import List NArith Ascii String Bool Arith Lia.
Import ListNotations.

Set Implicit Arguments.
#[local] Set Warnings "-register-all".

(* ================================================================== *)
(** ** JavaScript strings *)

Module JsString.

(** A JavaScript string is a finite sequence of 16-bit code units.  The
    units are kept as [N]; nothing below depends on the bound. *)
Definition jsstring := list N.

(** A literal: the code units of a Basic Latin text. *)
Definition js (s : string) : jsstring :=
  map N_of_ascii (list_ascii_of_string s).

Fixpoint str_eqb (s t : jsstring) : bool :=
  match s, t with
  | [], [] => true
  | c :: s', d :: t' => N.eqb c d && str_eqb s' t'
  | _, _ => false
  end.

(** [startsWith s t]: [t] is a prefix of [s]. *)
Fixpoint startsWith (s t : jsstring) : bool :=
  match t with
  | [] => true
  | d :: t' =>
      match s with
      | [] => false
      | c :: s' => N.eqb c d && startsWith s' t'
      end
  end.

(** [String.prototype.includes]: [t] occurs in [s] at some offset. *)
Fixpoint includes (s t : jsstring) : bool :=
  startsWith s t ||
  match s with
  | [] => false
  | _ :: s' => includes s' t
  end.

(** [String.prototype.toLowerCase], on the Basic Latin letters: [A]..[Z]
    go to [a]..[z].  The case mappings of the rest of Unicode are not
    modelled; other code units are left as they are. *)
Definition lower_unit (c : N) : N :=
  if (65 <=? c)%N && (c <=? 90)%N then (c + 32)%N else c.

Definition toLowerCase (s : jsstring) : jsstring := map lower_unit s.

(** The code units [String.prototype.trim] strips: ECMAScript's WhiteSpace
    (TAB, VT, FF, SP, NBSP, ZWNBSP and the space separators) and
    LineTerminator (LF, CR, LS, PS). *)
Definition is_space (c : N) : bool :=
  ( (c =? 9) || (c =? 10) || (c =? 11) || (c =? 12) || (c =? 13)
  || (c =? 32) || (c =? 160) || (c =? 5760)
  || ((8192 <=? c) && (c <=? 8202))
  || (c =? 8232) || (c =? 8233) || (c =? 8239) || (c =? 8287)
  || (c =? 12288) || (c =? 65279) )%N.

Fixpoint trimStart (s : jsstring) : jsstring :=
  match s with
  | [] => []
  | c :: s' => if is_space c then trimStart s' else s
  end.

Definition trimEnd (s : jsstring) : jsstring := rev (trimStart (rev s)).

Definition trim (s : jsstring) : jsstring := trimEnd (trimStart s).

(** [Array.prototype.join] on strings. *)
Fixpoint join (sep : jsstring) (l : list jsstring) : jsstring :=
  match l with
  | [] => []
  | [s] => s
  | s :: l' => s ++ sep ++ join sep l'
  end.

End JsString.

Import JsString.

(* ================================================================== *)
(** ** JSON *)

Module Json.

Local Open Scope N_scope.

(** What [JSON.parse] returns.  Numbers keep their lexeme: the program never
    computes with one. *)
Inductive value : Type :=
| VNull
| VBool (b : bool)
| VNum (lexeme : jsstring)
| VStr (s : jsstring)
| VArr (elems : list value)
| VObj (members : list (jsstring * value)).   (* as written, in order *)

(** *** Writing a string: QuoteJSONString *)

Definition hexchar (d : N) : N := if d <? 10 then 48 + d else 87 + d.

(** UnicodeEscape: backslash, [u], four lower-case hexadecimal digits. *)
Definition uescape (c : N) : jsstring :=
  [92; 117; hexchar ((c / 4096) mod 16); hexchar ((c / 256) mod 16);
   hexchar ((c / 16) mod 16); hexchar (c mod 16)].

Definition is_high (c : N) : bool := (55296 <=? c) && (c <=? 56319).
Definition is_low (c : N) : bool := (56320 <=? c) && (c <=? 57343).
Definition is_surrogate (c : N) : bool := (55296 <=? c) && (c <=? 57343).

(** One code unit that is not the first half of a surrogate pair. *)
Definition quote_unit (c : N) : jsstring :=
  if c =? 8 then [92; 98]
  else if c =? 9 then [92; 116]
  else if c =? 10 then [92; 110]
  else if c =? 12 then [92; 102]
  else if c =? 13 then [92; 114]
  else if c =? 34 then [92; 34]
  else if c =? 92 then [92; 92]
  else if (c <? 32) || is_surrogate c then uescape c
  else [c].

(** The string is read by code points: a high surrogate followed by a low
    one is a pair and is copied; a surrogate on its own is escaped. *)
Fixpoint quote_units (s : jsstring) : jsstring :=
  match s with
  | [] => []
  | c :: r =>
      match r with
      | d :: r' =>
          if is_high c && is_low d then c :: d :: quote_units r'
          else quote_unit c ++ quote_units r
      | [] => quote_unit c
      end
  end.

Definition quote (s : jsstring) : jsstring := 34 :: quote_units s ++ [34].

(** *** Reading: JSON.parse *)

Definition is_ws (c : N) : bool :=
  (c =? 9) || (c =? 10) || (c =? 13) || (c =? 32).

Fixpoint skip_ws (s : jsstring) : jsstring :=
  match s with
  | [] => []
  | c :: r => if is_ws c then skip_ws r else s
  end.

Definition hexval (c : N) : option N :=
  if (48 <=? c) && (c <=? 57) then Some (c - 48)
  else if (97 <=? c) && (c <=? 102) then Some (c - 87)
  else if (65 <=? c) && (c <=? 70) then Some (c - 55)
  else None.

Definition hex4 (a b c d : N) : option N :=
  match hexval a, hexval b, hexval c, hexval d with
  | Some x, Some y, Some z, Some w => Some (4096 * x + 256 * y + 16 * z + w)
  | _, _, _, _ => None
  end.

Definition simple_escape (e : N) : option N :=
  if e =? 34 then Some 34
  else if e =? 92 then Some 92
  else if e =? 47 then Some 47
  else if e =? 98 then Some 8
  else if e =? 102 then Some 12
  else if e =? 110 then Some 10
  else if e =? 114 then Some 13
  else if e =? 116 then Some 9
  else None.

(** The characters of a string after its opening quote, up to and
    including the closing one; the result is the string and what follows. *)
Fixpoint parse_chars (s : jsstring) : option (jsstring * jsstring) :=
  match s with
  | [] => None
  | c :: r =>
      if c =? 34 then Some ([], r)
      else if c =? 92 then
        match r with
        | [] => None
        | e :: r1 =>
            if e =? 117 then
              match r1 with
              | h1 :: h2 :: h3 :: h4 :: r2 =>
                  match hex4 h1 h2 h3 h4 with
                  | Some u =>
                      match parse_chars r2 with
                      | Some (str, rest) => Some (u :: str, rest)
                      | None => None
                      end
                  | None => None
                  end
              | _ => None
              end
            else
              match simple_escape e with
              | Some u =>
                  match parse_chars r1 with
                  | Some (str, rest) => Some (u :: str, rest)
                  | None => None
                  end
              | None => None
              end
        end
      else if c <? 32 then None
      else
        match parse_chars r with
        | Some (str, rest) => Some (c :: str, rest)
        | None => None
        end
  end.

Definition is_digit (c : N) : bool := (48 <=? c) && (c <=? 57).

Fixpoint span_digits (s : jsstring) : jsstring * jsstring :=
  match s with
  | c :: r =>
      if is_digit c then let (ds, rest) := span_digits r in (c :: ds, rest)
      else ([], s)
  | [] => ([], [])
  end.

(** One or more digits. *)
Definition digits1 (s : jsstring) : option (jsstring * jsstring) :=
  match span_digits s with
  | ([], _) => None
  | p => Some p
  end.

(** The integer part: [0], or a non-zero digit and more digits. *)
Definition int_part (s : jsstring) : option (jsstring * jsstring) :=
  match s with
  | c :: r =>
      if c =? 48 then Some ([48], r)
      else if is_digit c then let (ds, rest) := span_digits r in Some (c :: ds, rest)
      else None
  | [] => None
  end.

Definition frac_part (s : jsstring) : option (jsstring * jsstring) :=
  match s with
  | 46 :: r =>
      match digits1 r with
      | Some (ds, rest) => Some (46 :: ds, rest)
      | None => None
      end
  | _ => Some ([], s)
  end.

Definition exp_part (s : jsstring) : option (jsstring * jsstring) :=
  match s with
  | e :: r =>
      if (e =? 101) || (e =? 69) then
        let (sign, r1) :=
          match r with
          | g :: r' => if (g =? 43) || (g =? 45) then ([g], r') else ([], r)
          | [] => ([], r)
          end in
        match digits1 r1 with
        | Some (ds, rest) => Some (e :: sign ++ ds, rest)
        | None => None
        end
      else Some ([], s)
  | [] => Some ([], s)
  end.

(** A JSON number: its lexeme and what follows. *)
Definition parse_number (s : jsstring) : option (jsstring * jsstring) :=
  let (minus, s0) :=
    match s with
    | 45 :: r => ([45], r)
    | _ => ([], s)
    end in
  match int_part s0 with
  | Some (i, s1) =>
      match frac_part s1 with
      | Some (f, s2) =>
          match exp_part s2 with
          | Some (e, s3) => Some (minus ++ i ++ f ++ e, s3)
          | None => None
          end
      | None => None
      end
  | None => None
  end.

Definition literal (word : jsstring) (v : value) (s : jsstring)
  : option (value * jsstring) :=
  if startsWith s word then Some (v, skipn (List.length word) s) else None.

(** The recursive descent, on a fuel that bounds the nesting and the number
    of elements; [parse] below gives it more than any text can use. *)
Fixpoint parse_value (fuel : nat) (s : jsstring) : option (value * jsstring) :=
  match fuel with
  | O => None
  | S f =>
      match skip_ws s with
      | [] => None
      | c :: r =>
          if c =? 34 then
            match parse_chars r with
            | Some (str, rest) => Some (VStr str, rest)
            | None => None
            end
          else if c =? 91 then
            match skip_ws r with
            | 93 :: rest => Some (VArr [], rest)
            | _ =>
                match parse_elements f r with
                | Some (vs, rest) => Some (VArr vs, rest)
                | None => None
                end
            end
          else if c =? 123 then
            match skip_ws r with
            | 125 :: rest => Some (VObj [], rest)
            | _ =>
                match parse_members f r with
                | Some (ms, rest) => Some (VObj ms, rest)
                | None => None
                end
            end
          else if c =? 116 then literal (js "true") (VBool true) (c :: r)
          else if c =? 102 then literal (js "false") (VBool false) (c :: r)
          else if c =? 110 then literal (js "null") VNull (c :: r)
          else
            match parse_number (c :: r) with
            | Some (lexeme, rest) => Some (VNum lexeme, rest)
            | None => None
            end
      end
  end

(** One or more values separated by commas, and the closing bracket. *)
with parse_elements (fuel : nat) (s : jsstring)
  : option (list value * jsstring) :=
  match fuel with
  | O => None
  | S f =>
      match parse_value f s with
      | Some (v, r) =>
          match skip_ws r with
          | 44 :: r1 =>
              match parse_elements f r1 with
              | Some (vs, rest) => Some (v :: vs, rest)
              | None => None
              end
          | 93 :: rest => Some ([v], rest)
          | _ => None
          end
      | None => None
      end
  end

(** One or more [key : value] members separated by commas, and the closing
    brace. *)
with parse_members (fuel : nat) (s : jsstring)
  : option (list (jsstring * value) * jsstring) :=
  match fuel with
  | O => None
  | S f =>
      match skip_ws s with
      | 34 :: r =>
          match parse_chars r with
          | Some (key, r1) =>
              match skip_ws r1 with
              | 58 :: r2 =>
                  match parse_value f r2 with
                  | Some (v, r3) =>
                      match skip_ws r3 with
                      | 44 :: r4 =>
                          match parse_members f r4 with
                          | Some (ms, rest) => Some ((key, v) :: ms, rest)
                          | None => None
                          end
                      | 125 :: rest => Some ([(key, v)], rest)
                      | _ => None
                      end
                  | None => None
                  end
              | _ => None
              end
          | None => None
          end
      | _ => None
      end
  end.

(** [JSON.parse]: one value, with nothing but white space after it.  [None]
    is the [SyntaxError]. *)
Definition parse (s : jsstring) : option value :=
  match parse_value (S (List.length s)) s with
  | Some (v, rest) =>
      match skip_ws rest with
      | [] => Some v
      | _ => None
      end
  | None => None
  end.

End Json.

Import Json.

(* ================================================================== *)
(** ** The world the script runs in *)

(** [class Note]: the four own properties, all strings (the persisted layout
    of the data model). *)
Record Note : Type := mkNote {
  uuid : jsstring;
  title : jsstring;
  content : jsstring;
  color : jsstring
}.

(** What the script does to its environment, in order. *)
Inductive event : Type :=
| ESetItem (key blob : jsstring)                 (* localStorage.setItem *)
| EConfirm (msg : jsstring) (answer : bool)      (* window.confirm *)
| EPrompt (msg : jsstring) (answer : option jsstring)  (* window.prompt *)
| EAlert (msg : jsstring)                        (* window.alert *)
| ELog (msg : jsstring).                         (* console.log *)

(** The page.  The element ids are those of [app.js]; the second controller
    calls them [txt-search], [input-new-note-title], [txt-new-note-content],
    [selector-new-note-color], [btn-add-note], [notes-container] and
    [btn-delete-all-notes]. *)
Record Dom : Type := mkDom {
  searchTxt : jsstring;        (* value of the search input *)
  inpTitle : jsstring;         (* value of the title input *)
  txtContent : jsstring;       (* value of the content text area *)
  selectorColor : jsstring;    (* value of the colour selector *)
  addBtnDisabled : bool;       (* [disabled] of the add button *)
  notesHtml : jsstring;        (* [innerHTML] of the notes container *)
  delAllHidden : bool          (* class [hidden] on the delete-all button *)
}.

Record World : Type := mkWorld {
  localStorage : list (jsstring * jsstring);
  uuids : nat -> jsstring;     (* what [crypto.randomUUID()] returns, call by call *)
  drawn : nat;                 (* calls of [crypto.randomUUID()] so far *)
  dom : Dom;
  trace : list event
}.

Definition with_localStorage (ls : list (jsstring * jsstring)) (w : World) :=
  mkWorld ls (uuids w) (drawn w) (dom w) (trace w).
Definition with_drawn (n : nat) (w : World) :=
  mkWorld (localStorage w) (uuids w) n (dom w) (trace w).
Definition with_dom (d : Dom) (w : World) :=
  mkWorld (localStorage w) (uuids w) (drawn w) d (trace w).
Definition with_trace (t : list event) (w : World) :=
  mkWorld (localStorage w) (uuids w) (drawn w) (dom w) t.

Definition with_searchTxt (v : jsstring) (d : Dom) :=
  mkDom v (inpTitle d) (txtContent d) (selectorColor d) (addBtnDisabled d)
        (notesHtml d) (delAllHidden d).
Definition with_inpTitle (v : jsstring) (d : Dom) :=
  mkDom (searchTxt d) v (txtContent d) (selectorColor d) (addBtnDisabled d)
        (notesHtml d) (delAllHidden d).
Definition with_selectorColor (v : jsstring) (d : Dom) :=
  mkDom (searchTxt d) (inpTitle d) (txtContent d) v (addBtnDisabled d)
        (notesHtml d) (delAllHidden d).
Definition with_txtContent (v : jsstring) (d : Dom) :=
  mkDom (searchTxt d) (inpTitle d) v (selectorColor d) (addBtnDisabled d)
        (notesHtml d) (delAllHidden d).
Definition with_addBtnDisabled (b : bool) (d : Dom) :=
  mkDom (searchTxt d) (inpTitle d) (txtContent d) (selectorColor d) b
        (notesHtml d) (delAllHidden d).
Definition with_notesHtml (v : jsstring) (d : Dom) :=
  mkDom (searchTxt d) (inpTitle d) (txtContent d) (selectorColor d)
        (addBtnDisabled d) v (delAllHidden d).
Definition with_delAllHidden (b : bool) (d : Dom) :=
  mkDom (searchTxt d) (inpTitle d) (txtContent d) (selectorColor d)
        (addBtnDisabled d) (notesHtml d) b.

(** *** Results and the monad *)

Inductive exn : Type :=
| SyntaxError     (* [JSON.parse] on text that is not JSON *)
| TypeError.      (* [objs.map] when [objs] is not an array *)

(** [OutOfModel]: the script goes on, with a note that [Note] above cannot
    hold (a property that is not a string, or a fifth property). *)
Inductive outcome (A : Type) : Type :=
| Ok (a : A)
| Throw (e : exn)
| OutOfModel.

Arguments Throw {A} e.
Arguments OutOfModel {A}.

(** A statement: it reads and changes the world, and returns or throws.
    What was done before a throw stays done. *)
Definition M (A : Type) : Type := World -> outcome A * World.

Definition ret {A} (a : A) : M A := fun w => (Ok a, w).

Definition bind {A B} (m : M A) (k : A -> M B) : M B :=
  fun w =>
    match m w with
    | (Ok a, w') => k a w'
    | (Throw e, w') => (Throw e, w')
    | (OutOfModel, w') => (OutOfModel, w')
    end.

Definition throw {A} (e : exn) : M A := fun w => (Throw e, w).
Definition out_of_model {A} : M A := fun w => (OutOfModel, w).

Declare Scope js_scope.
Delimit Scope js_scope with js.
Notation "x <- m ;; k" := (bind m (fun x => k))
  (at level 61, m at next level, right associativity) : js_scope.
Notation "m ;; k" := (bind m (fun _ => k))
  (at level 61, right associativity) : js_scope.
Local Open Scope js_scope.

Fixpoint mapM {A B} (f : A -> M B) (l : list A) : M (list B) :=
  match l with
  | [] => ret []
  | a :: l' => b <- f a ;; bs <- mapM f l' ;; ret (b :: bs)
  end.

(** The world after a statement, and its result. *)
Definition exec {A} (m : M A) (w : World) : World := snd (m w).
Definition eval {A} (m : M A) (w : World) : outcome A := fst (m w).

(** *** The host's objects *)

Definition emit (e : event) : M unit :=
  fun w => (Ok tt, with_trace (trace w ++ [e]) w).

Definition getDom {A} (f : Dom -> A) : M A := fun w => (Ok (f (dom w)), w).
Definition setDom (f : Dom -> Dom) : M unit :=
  fun w => (Ok tt, with_dom (f (dom w)) w).

Fixpoint lookup (key : jsstring) (ls : list (jsstring * jsstring))
  : option jsstring :=
  match ls with
  | [] => None
  | (k, v) :: ls' => if str_eqb k key then Some v else lookup key ls'
  end.

Fixpoint store (key blob : jsstring) (ls : list (jsstring * jsstring))
  : list (jsstring * jsstring) :=
  match ls with
  | [] => [(key, blob)]
  | (k, v) :: ls' =>
      if str_eqb k key then (k, blob) :: ls' else (k, v) :: store key blob ls'
  end.

(** [localStorage.getItem]: [None] is [null]. *)
Definition getItem (key : jsstring) : M (option jsstring) :=
  fun w => (Ok (lookup key (localStorage w)), w).

(** [localStorage.setItem], with room left in the storage area. *)
Definition setItem (key blob : jsstring) : M unit :=
  (fun w => (Ok tt, with_localStorage (store key blob (localStorage w)) w)) ;;
  emit (ESetItem key blob).

Definition randomUUID : M jsstring :=
  fun w => (Ok (uuids w (drawn w)), with_drawn (S (drawn w)) w).

(** The dialogs block until the user answers; the answer is an argument. *)
Definition confirm (msg : jsstring) (answer : bool) : M bool :=
  emit (EConfirm msg answer) ;; ret answer.
Definition prompt (msg : jsstring) (answer : option jsstring)
  : M (option jsstring) :=
  emit (EPrompt msg answer) ;; ret answer.
Definition alert (msg : jsstring) : M unit := emit (EAlert msg).
Definition console_log (msg : jsstring) : M unit := emit (ELog msg).

Definition JSON_parse (text : jsstring) : M value :=
  match parse text with
  | Some v => ret v
  | None => throw SyntaxError
  end.

(** [JSON.stringify] of a [Note]: its own properties in creation order. *)
Definition stringify_note (n : Note) : jsstring :=
  js "{" ++ quote (js "uuid") ++ js ":" ++ quote (uuid n)
  ++ js "," ++ quote (js "title") ++ js ":" ++ quote (title n)
  ++ js "," ++ quote (js "content") ++ js ":" ++ quote (content n)
  ++ js "," ++ quote (js "color") ++ js ":" ++ quote (color n)
  ++ js "}".

(** [JSON.stringify] of an array of notes. *)
Definition JSON_stringify (notes : list Note) : jsstring :=
  js "[" ++ join (js ",") (map stringify_note notes) ++ js "]".

(* ================================================================== *)
(** ** The note store: the part the two scripts share *)

Definition NOTES_LOCAL_STORAGE_KEY : jsstring := js "notes".

(** [constructor(title = "", content = "", color = "white")] *)
Definition new_Note (title content color : jsstring) : M Note :=
  u <- randomUUID ;;
  ret (mkNote u title content color).

(** The own enumerable properties [Object.assign] copies from its source.
    Primitives, [null] and the empty array have none; the index properties
    of a non-empty string or array are outside the model. *)
Definition own_properties (obj : value) : option (list (jsstring * value)) :=
  match obj with
  | VObj members => Some members
  | VNull | VBool _ | VNum _ => Some []
  | VStr [] => Some []
  | VArr [] => Some []
  | VStr (_ :: _) | VArr (_ :: _) => None
  end.

(** [Object.assign(target, ...)], property by property, later ones winning.
    [None]: the result is not a [Note] of four strings. *)
Fixpoint assign (target : Note) (props : list (jsstring * value))
  : option Note :=
  match props with
  | [] => Some target
  | (key, VStr s) :: rest =>
      if str_eqb key (js "uuid") then
        assign (mkNote s (title target) (content target) (color target)) rest
      else if str_eqb key (js "title") then
        assign (mkNote (uuid target) s (content target) (color target)) rest
      else if str_eqb key (js "content") then
        assign (mkNote (uuid target) (title target) s (color target)) rest
      else if str_eqb key (js "color") then
        assign (mkNote (uuid target) (title target) (content target) s) rest
      else None
  | _ :: _ => None
  end.

(** [static fromObj(obj) { return Object.assign(new Note(), obj); }] *)
Definition fromObj (obj : value) : M Note :=
  target <- new_Note (js "") (js "") (js "white") ;;
  match own_properties obj with
  | Some props =>
      match assign target props with
      | Some note => ret note
      | None => out_of_model
      end
  | None => out_of_model
  end.

(** [item || default], for an [item] that is a string or [null]: [null] and
    the empty string are the falsy ones. *)
Definition or_else (item : option jsstring) (default : jsstring) : jsstring :=
  match item with
  | None | Some [] => default
  | Some ((_ :: _) as text) => text
  end.

(** [function getNotes()] *)
Definition getNotes : M (list Note) :=
  item <- getItem NOTES_LOCAL_STORAGE_KEY ;;
  let jsonObjs := or_else item (js "[]") in
  objs <- JSON_parse jsonObjs ;;
  match objs with
  | VArr elems => mapM fromObj elems
  | _ => throw TypeError
  end.

(** [function saveNotes(notes)] *)
Definition saveNotes (notes : list Note) : M unit :=
  let jsonNotes := JSON_stringify notes in
  setItem NOTES_LOCAL_STORAGE_KEY jsonNotes.

(** [function saveNewNote(note)] *)
Definition saveNewNote (note : Note) : M unit :=
  notes <- getNotes ;;
  saveNotes (notes ++ [note]).

(* ================================================================== *)
(** ** The view: what the two scripts share but for the card's markup *)

Definition dq : jsstring := [34%N].
Definition nl : jsstring := [10%N].
Definition sp (n : nat) : jsstring := repeat 32%N n.

(** The text shown when no note matches. *)
Definition placeholder : jsstring :=
  js "<div>Nothing to show! Use " ++ dq ++ js "Add a Note" ++ dq
  ++ js " section above to add notes.</div>".

Section View.

Variable card : Note -> jsstring.

(** The filter of [updateDisplayedNotes]. *)
Definition matches (searchText : jsstring) (note : Note) : bool :=
  includes (title note) (toLowerCase searchText)
  || includes (content note) (toLowerCase searchText).

(** [function updateDisplayedNotes()] *)
Definition updateDisplayedNotes : M unit :=
  searchText <- getDom searchTxt ;;
  notes <- getNotes ;;
  let matchedNotes := filter (matches searchText) notes in
  if Nat.eqb (List.length matchedNotes) 0 then
    setDom (with_notesHtml placeholder)
  else
    let notesHtml := map card matchedNotes in
    setDom (with_notesHtml (join nl notesHtml)).

(** [function deleteNote(uuid)] *)
Definition deleteNote (id : jsstring) : M unit :=
  notes <- getNotes ;;
  let newNotes := filter (fun note => negb (str_eqb (uuid note) id)) notes in
  saveNotes newNotes ;;
  updateDisplayedNotes.

(** [function deleteAllNotes()] *)
Definition deleteAllNotes : M unit :=
  saveNotes [] ;;
  updateDisplayedNotes.

(** The listener of the content text area's [input] event. *)
Definition on_content_input : M unit :=
  value <- getDom txtContent ;;
  let trimmedInputText := trim value in
  setDom (with_addBtnDisabled (Nat.eqb (List.length trimmedInputText) 0)).

(** The listener of the search input's [input] event. *)
Definition on_search_input : M unit := updateDisplayedNotes.

(** The lines the two [click] listeners of the add button share. *)
Definition add_note_from_inputs : M unit :=
  setDom (with_addBtnDisabled true) ;;
  raw <- getDom inpTitle ;;
  let title := or_else (Some (trim raw)) (js "Untitled") in
  content <- getDom txtContent ;;
  color <- getDom selectorColor ;;
  note <- new_Note title content color ;;
  saveNewNote note ;;
  setDom (with_txtContent []) ;;
  updateDisplayedNotes.

(** The user edits a field: the browser sets the value, then fires [input]. *)
Definition type_content (text : jsstring) : M unit :=
  setDom (with_txtContent text) ;; on_content_input.
Definition type_search (text : jsstring) : M unit :=
  setDom (with_searchTxt text) ;; on_search_input.
Definition type_title (text : jsstring) : M unit :=
  setDom (with_inpTitle text).
Definition pick_color (token : jsstring) : M unit :=
  setDom (with_selectorColor token).

(** The user clicks the add button: a disabled button fires no [click]. *)
Definition click_add (listener : M unit) : M unit :=
  disabled <- getDom addBtnDisabled ;;
  if disabled then ret tt else listener.

End View.

(* ================================================================== *)
(** ** [app.js] *)

Module AppJs.

Definition card (note : Note) : jsstring :=
  nl ++ sp 16 ++ js "<div class=" ++ dq ++ js "noteCard my-2 mx-2 card" ++ dq
     ++ js " style=" ++ dq
     ++ js "width: 18rem; box-shadow: 0 0 10px #333; background-color: "
     ++ color note ++ js ";" ++ dq ++ js ">"
  ++ nl ++ sp 20 ++ js "<div class=" ++ dq ++ js "card-body" ++ dq ++ js ">"
  ++ nl ++ sp 24 ++ js "<h5 class=" ++ dq ++ js "card-title" ++ dq ++ js ">"
     ++ title note ++ js "</h5>"
  ++ nl ++ sp 24 ++ js "<p class=" ++ dq ++ js "card-text" ++ dq ++ js "> "
     ++ content note ++ js "</p>"
  ++ nl ++ sp 24 ++ js "<button id=" ++ dq ++ uuid note ++ dq
     ++ js "onclick=" ++ dq ++ js "deleteNote(this.id)" ++ dq
     ++ js " class=" ++ dq ++ js "btn btn-primary" ++ dq
     ++ js ">Delete Note</button>"
  ++ nl ++ sp 20 ++ js "</div>"
  ++ nl ++ sp 16 ++ js "</div>".

Definition updateDisplayedNotes : M unit := updateDisplayedNotes card.
Definition deleteNote : jsstring -> M unit := deleteNote card.
Definition deleteAllNotes : M unit := deleteAllNotes card.

(** The card's button: [onclick="deleteNote(this.id)"]. *)
Definition on_card_button_click (id : jsstring) : M unit := deleteNote id.

(** The [click] listener of [addBtn]. *)
Definition on_addBtn_click : M unit := add_note_from_inputs card.

Definition prompt_text : jsstring :=
  js "Alert! You are about to remove all your notes. Type in " ++ dq
  ++ js "delete" ++ dq ++ js " to confirm.".

Definition refusal_text : jsstring :=
  js "Couldn't proceed. WARNING: case-sensitive".

(** The [click] listener of [delAllBtn]. *)
Definition on_delAllBtn_click (typed : option jsstring) : M unit :=
  answer <- prompt prompt_text typed ;;
  let isDelete :=
    match answer with
    | Some text => str_eqb text (js "delete")
    | None => false
    end in
  if isDelete then deleteAllNotes
  else alert refusal_text.

(** The last two lines of the script. *)
Definition on_load : M unit :=
  console_log (js "Welcome to notes app. This is app.js") ;;
  updateDisplayedNotes.

End AppJs.

(* ================================================================== *)
(** ** The second controller *)

Module Part000.

Definition card (note : Note) : jsstring :=
  nl ++ sp 16 ++ js "<div class=" ++ dq ++ js "noteCard my-2 mx-2 card" ++ dq
     ++ js " style=" ++ dq
     ++ js "width: 18rem; box-shadow: 0 0 10px #333; background-color: "
     ++ color note ++ js ";" ++ dq ++ js ">"
  ++ nl ++ sp 20 ++ js "<a class=" ++ dq ++ js "delete-note-link" ++ dq
     ++ js " data-note-uuid=" ++ dq ++ uuid note ++ dq
     ++ js " onclick=" ++ dq ++ js "handleDeleteNoteLinkClick(this)" ++ dq
     ++ js ">X</a>"
  ++ nl ++ sp 20 ++ js "<div class=" ++ dq ++ js "card-body" ++ dq ++ js ">"
  ++ nl ++ sp 24 ++ js "<h5 class=" ++ dq ++ js "card-title" ++ dq ++ js ">"
     ++ title note ++ js "</h5>"
  ++ nl ++ sp 24 ++ js "<p class=" ++ dq ++ js "card-text" ++ dq ++ js "> "
     ++ content note ++ js "</p>"
  ++ nl ++ sp 20 ++ js "</div>"
  ++ nl ++ sp 16 ++ js "</div>".

Definition updateDisplayedNotes : M unit := updateDisplayedNotes card.
Definition deleteNote : jsstring -> M unit := deleteNote card.
Definition deleteAllNotes : M unit := deleteAllNotes card.

(** [function updateDeleteAllNotesButtonVisibility()] *)
Definition updateDeleteAllNotesButtonVisibility : M unit :=
  notes <- getNotes ;;
  if Nat.eqb (List.length notes) 0 then
    setDom (with_delAllHidden true)
  else
    setDom (with_delAllHidden false).

(** [function handleDeleteNoteLinkClick(ele)]; [id] is the link's
    [data-note-uuid]. *)
Definition handleDeleteNoteLinkClick (id : jsstring) (yes : bool) : M unit :=
  ok <- confirm (js "Are you sure you want to delete this note?") yes ;;
  if ok then
    deleteNote id ;;
    updateDeleteAllNotesButtonVisibility
  else ret tt.

(** The [click] listener of [btn-add-note]. *)
Definition on_btn_add_note_click : M unit :=
  add_note_from_inputs card ;;
  updateDeleteAllNotesButtonVisibility.

(** The [click] listener of [btn-delete-all-notes]. *)
Definition on_btn_delete_all_notes_click (yes : bool) : M unit :=
  ok <- confirm (js "Are you sure you want to delete all your notes?") yes ;;
  if ok then
    deleteAllNotes ;;
    updateDeleteAllNotesButtonVisibility
  else ret tt.

(** The last two lines of the script. *)
Definition on_load : M unit :=
  updateDisplayedNotes ;;
  updateDeleteAllNotesButtonVisibility.

End Part000.

(* ================================================================== *)
(** ** The vocabulary of the properties *)

(** The object [JSON.parse] builds from [stringify_note n]. *)
Definition note_value (n : Note) : value :=
  VObj [(js "uuid", VStr (uuid n)); (js "title", VStr (title n));
        (js "content", VStr (content n)); (js "color", VStr (color n))].

(** The text [getNotes] reads. *)
Definition stored_text (ls : list (jsstring * jsstring)) : jsstring :=
  or_else (lookup NOTES_LOCAL_STORAGE_KEY ls) (js "[]").

(** A stored object that fixes all four properties of the note read from
    it, whatever [new Note()] had put there. *)
Definition complete (v : value) (n : Note) : Prop :=
  exists props,
    own_properties v = Some props /\ forall target, assign target props = Some n.

(** The storage holds the collection [notes]. *)
Definition holds (ls : list (jsstring * jsstring)) (notes : list Note) : Prop :=
  exists elems,
    parse (stored_text ls) = Some (VArr elems) /\ Forall2 complete elems notes.

(** What the notes container shows for a search text and a collection. *)
Definition display (card : Note -> jsstring) (searchText : jsstring)
  (notes : list Note) : jsstring :=
  match filter (matches searchText) notes with
  | [] => placeholder
  | (_ :: _) as matchedNotes => join nl (map card matchedNotes)
  end.

(** The filter of [deleteNote]. *)
Definition keeps (id : jsstring) (note : Note) : bool :=
  negb (str_eqb (uuid note) id).

(** Nothing was ever stored under the notes key. *)
Definition never_stored (w : World) : Prop :=
  lookup NOTES_LOCAL_STORAGE_KEY (localStorage w) = None.

(** The operations of the store, by the names of the specification:
    [listAll] is [getNotes], [replaceAll] is [saveNotes], [append] is
    [saveNewNote], [removeById] is [deleteNote]. *)
Inductive op : Type :=
| Append (note : Note)
| RemoveById (id : jsstring).

Section Ops.

Variable card : Note -> jsstring.

Definition run_op (o : op) : M unit :=
  match o with
  | Append note => saveNewNote note
  | RemoveById id => deleteNote card id
  end.

Fixpoint run (ops : list op) : M unit :=
  match ops with
  | [] => ret tt
  | o :: ops' => run_op o ;; run ops'
  end.

End Ops.

(** [id] is removed somewhere in [ops]. *)
Definition removed_in (ops : list op) (id : jsstring) : bool :=
  existsb (fun o => match o with
                    | RemoveById x => str_eqb id x
                    | Append _ => false
                    end) ops.

(** The surviving notes of a sequence of operations: each appended note
    that no later operation removes, in the order of the appends. *)
Fixpoint survivors (ops : list op) : list Note :=
  match ops with
  | [] => []
  | Append note :: ops' =>
      if removed_in ops' (uuid note) then survivors ops'
      else note :: survivors ops'
  | RemoveById _ :: ops' => survivors ops'
  end.

(** The notes a sequence appends. *)
Fixpoint appended (ops : list op) : list Note :=
  match ops with
  | [] => []
  | Append note :: ops' => note :: appended ops'
  | RemoveById _ :: ops' => appended ops'
  end.

(** What the user can do on the page of the second controller. *)
Inductive action : Type :=
| TypeTitle (text : jsstring)
| TypeContent (text : jsstring)
| PickColor (token : jsstring)
| TypeSearch (text : jsstring)
| ClickAdd
| ClickDeleteLink (id : jsstring) (yes : bool)
| ClickDeleteAll (yes : bool).

Definition react (a : action) : M unit :=
  match a with
  | TypeTitle text => type_title text
  | TypeContent text => type_content text
  | PickColor token => pick_color token
  | TypeSearch text => type_search Part000.card text
  | ClickAdd => click_add Part000.on_btn_add_note_click
  | ClickDeleteLink id yes => Part000.handleDeleteNoteLinkClick id yes
  | ClickDeleteAll yes => Part000.on_btn_delete_all_notes_click yes
  end.

Fixpoint session (actions : list action) : M unit :=
  match actions with
  | [] => ret tt
  | a :: actions' => react a ;; session actions'
  end.

(** The "delete all" button is shown exactly when the storage holds a note. *)
Definition delAll_shown_iff_notes (w : World) : Prop :=
  exists notes,
    holds (localStorage w) notes
    /\ (delAllHidden (dom w) = false <-> notes <> []).

(** The add button is enabled only over a content that is not blank. *)
Definition add_enabled_only_on_text (w : World) : Prop :=
  addBtnDisabled (dom w) = false -> trim (txtContent (dom w)) <> [].

(** The stored notes carry distinct [uuid]s, each one drawn from
    [crypto.randomUUID()] earlier in the visit. *)
Definition stored_ids_drawn (w : World) : Prop :=
  exists notes,
    holds (localStorage w) notes
    /\ NoDup (map uuid notes)
    /\ Forall (fun note => exists k, k < drawn w /\ uuid note = uuids w k) notes.

(** [crypto.randomUUID()] never returns the same value twice. *)
Definition never_repeats (us : nat -> jsstring) : Prop :=
  forall i j, us i = us j -> i = j.

Definition is_alert (e : event) : bool :=
  match e with
  | EAlert _ => true
  | _ => false
  end.

Definition is_dialog (e : event) : bool :=
  match e with
  | EConfirm _ _ | EPrompt _ _ | EAlert _ => true
  | ESetItem _ _ | ELog _ => false
  end.

(* ================================================================== *)
(** ** Sample data *)

Definition sample_uuids (n : nat) : jsstring := js "note-" ++ repeat 49%N n.

(** A page just opened on a browser profile that never stored a note. *)
Definition fresh_page : World :=
  mkWorld [] sample_uuids 0 (mkDom [] [] [] (js "white") true [] true) [].

(** The same page, had its markup left the add button enabled. *)
Definition page_with_add_enabled : World :=
  mkWorld [] sample_uuids 0 (mkDom [] [] [] (js "white") false [] true) [].

(** A page whose notes entry is the empty string. *)
Definition page_with_empty_entry : World :=
  mkWorld [(NOTES_LOCAL_STORAGE_KEY, [])] sample_uuids 0
          (mkDom [] [] [] (js "white") true [] true) [].

Definition groceries : Note :=
  mkNote (js "note-") (js "Groceries") (js "milk, eggs") (js "yellow").

Definition chores : Note :=
  mkNote (js "note-1") (js "Chores") (js "water the plants") (js "white").

(** The user writes the groceries note and adds it. *)
Definition add_groceries (listener : M unit) : M unit :=
  type_title (js "Groceries") ;;
  type_content (js "milk, eggs") ;;
  pick_color (js "yellow") ;;
  click_add listener.

(** A page whose storage holds the groceries note. *)
Definition page_with_groceries : World :=
  mkWorld [(NOTES_LOCAL_STORAGE_KEY, JSON_stringify [groceries])]
          sample_uuids 1 (mkDom [] [] [] (js "white") true [] false) [].

(* ================================================================== *)
(** ** Vocabulary of the further properties *)




(** [key] is among the properties [props]. *)
Definition has_key (key : jsstring) (props : list (jsstring * value)) : bool :=
  existsb (fun p => str_eqb (fst p) key) props.

(** [t] occurs in [s]: some text before it, some text after it. *)
Definition occurs_in (t s : jsstring) : Prop :=
  exists before after, s = before ++ t ++ after.

(** The storage holds notes, and each has a content that is not blank. *)
Definition notes_have_text (w : World) : Prop :=
  exists notes,
    holds (localStorage w) notes
    /\ Forall (fun note => trim (content note) <> []) notes.

(** What the user can do on the page of [app.js]. *)
Inductive app_action : Type :=
| AppTypeTitle (text : jsstring)
| AppTypeContent (text : jsstring)
| AppPickColor (token : jsstring)
| AppTypeSearch (text : jsstring)
| AppClickAdd
| AppClickCardButton (id : jsstring)
| AppClickDeleteAll (typed : option jsstring).

Definition app_react (a : app_action) : M unit :=
  match a with
  | AppTypeTitle text => type_title text
  | AppTypeContent text => type_content text
  | AppPickColor token => pick_color token
  | AppTypeSearch text => type_search AppJs.card text
  | AppClickAdd => click_add AppJs.on_addBtn_click
  | AppClickCardButton id => AppJs.on_card_button_click id
  | AppClickDeleteAll typed => AppJs.on_delAllBtn_click typed
  end.

Fixpoint app_session (actions : list app_action) : M unit :=
  match actions with
  | [] => ret tt
  | a :: actions' => app_react a ;; app_session actions'
  end.

(** A page whose notes entry is not JSON. *)
Definition page_with_corrupt_entry : World :=
  mkWorld [(NOTES_LOCAL_STORAGE_KEY, js "[{oops")] sample_uuids 0
          (mkDom [] [] (js "tea") (js "white") false (js "<p>old</p>") false) [].

(** A page whose notes entry is JSON, but no array. *)
Definition page_with_object_entry : World :=
  mkWorld [(NOTES_LOCAL_STORAGE_KEY, js "{}")] sample_uuids 0
          (mkDom [] [] [] (js "white") true [] true) [].

(** A page whose storage also holds an entry of another script. *)
Definition page_with_other_entry : World :=
  mkWorld [(js "theme", js "dark");
           (NOTES_LOCAL_STORAGE_KEY, JSON_stringify [groceries])]
          sample_uuids 1 (mkDom [] [] [] (js "white") true [] false) [].


(* ================================================================== *)
(** ** Reading back what was written *)

Module JsonFacts.
Local Open Scope N_scope.

Lemma hexval_hexchar (d : N) : d < 16 -> hexval (hexchar d) = Some d.
Proof.
  intros H. unfold hexchar, hexval.
  destruct (N.ltb_spec d 10) as [Hd | Hd].
  - replace ((48 <=? 48 + d) && (48 + d <=? 57)) with true.
    + f_equal. lia.
    + symmetry. apply andb_true_iff. split; apply N.leb_le; lia.
  - replace ((48 <=? 87 + d) && (87 + d <=? 57)) with false.
    + replace ((97 <=? 87 + d) && (87 + d <=? 102)) with true.
      * f_equal. lia.
      * symmetry. apply andb_true_iff. split; apply N.leb_le; lia.
    + symmetry. apply andb_false_iff. right. apply N.leb_gt. lia.
Qed.

Lemma nibbles (c : N) :
  c < 65536 ->
  4096 * ((c / 4096) mod 16) + 256 * ((c / 256) mod 16)
  + 16 * ((c / 16) mod 16) + c mod 16 = c.
Proof.
  intros H.
  assert (c / 256 = c / 16 / 16) as E256
    by (rewrite N.Div0.div_div; reflexivity).
  assert (c / 4096 = c / 256 / 16) as E4096
    by (rewrite N.Div0.div_div; reflexivity).
  pose proof (N.div_mod c 16 ltac:(lia)) as E0.
  pose proof (N.div_mod (c / 16) 16 ltac:(lia)) as E1.
  pose proof (N.div_mod (c / 256) 16 ltac:(lia)) as E2.
  rewrite <- E256 in E1. rewrite <- E4096 in E2.
  assert (c / 4096 < 16) as H3 by (apply N.Div0.div_lt_upper_bound; lia).
  rewrite (N.mod_small (c / 4096) 16 H3).
  lia.
Qed.

Lemma hex4_uescape (c : N) :
  c < 65536 ->
  exists h1 h2 h3 h4,
    uescape c = [92; 117; h1; h2; h3; h4] /\ hex4 h1 h2 h3 h4 = Some c.
Proof.
  intros H. unfold uescape. do 4 eexists. split; [reflexivity|].
  unfold hex4.
  rewrite !hexval_hexchar by (apply N.mod_lt; lia).
  f_equal. apply nibbles, H.
Qed.

Lemma parse_chars_quote_unit (c : N) (t : jsstring) :
  parse_chars (quote_unit c ++ t) =
  match parse_chars t with
  | Some (str, rest) => Some (c :: str, rest)
  | None => None
  end.
Proof.
  unfold quote_unit.
  destruct (N.eqb_spec c 8) as [->|N8]; [reflexivity|].
  destruct (N.eqb_spec c 9) as [->|N9]; [reflexivity|].
  destruct (N.eqb_spec c 10) as [->|N10]; [reflexivity|].
  destruct (N.eqb_spec c 12) as [->|N12]; [reflexivity|].
  destruct (N.eqb_spec c 13) as [->|N13]; [reflexivity|].
  destruct (N.eqb_spec c 34) as [->|N34]; [reflexivity|].
  destruct (N.eqb_spec c 92) as [->|N92]; [reflexivity|].
  destruct ((c <? 32) || is_surrogate c) eqn:E.
  - assert (c < 65536) as Hc.
    { apply orb_true_iff in E. destruct E as [E|E].
      - apply N.ltb_lt in E. lia.
      - unfold is_surrogate in E. apply andb_true_iff in E.
        destruct E as [_ E]. apply N.leb_le in E. lia. }
    destruct (hex4_uescape Hc) as (h1 & h2 & h3 & h4 & Hu & Hh).
    rewrite Hu. simpl. rewrite Hh. reflexivity.
  - apply orb_false_iff in E. destruct E as [E _].
    simpl.
    apply N.eqb_neq in N34, N92. rewrite N34, N92, E. reflexivity.
Qed.

Lemma parse_chars_pair (c d : N) (t : jsstring) :
  is_high c && is_low d = true ->
  parse_chars (c :: d :: t) =
  match parse_chars t with
  | Some (str, rest) => Some (c :: d :: str, rest)
  | None => None
  end.
Proof.
  intros H. apply andb_true_iff in H. destruct H as [Hc Hd].
  unfold is_high in Hc. unfold is_low in Hd.
  apply andb_true_iff in Hc, Hd.
  destruct Hc as [Hc _], Hd as [Hd _]. apply N.leb_le in Hc, Hd.
  assert (forall x, 55296 <= x ->
            (x =? 34) = false /\ (x =? 92) = false /\ (x <? 32) = false) as K.
  { intros x Hx. repeat split;
      [apply N.eqb_neq | apply N.eqb_neq | apply N.ltb_ge]; lia. }
  assert (55296 <= d) as Hd' by lia.
  destruct (K c Hc) as (c1 & c2 & c3). destruct (K d Hd') as (d1 & d2 & d3).
  cbn [parse_chars]. rewrite c1, c2, c3, d1, d2, d3.
  destruct (parse_chars t) as [[str rest]|]; reflexivity.
Qed.

(** Reading back what [quote_units] wrote, up to the closing quote. *)
Lemma parse_chars_quote_units (s rest : jsstring) :
  parse_chars (quote_units s ++ 34 :: rest) = Some (s, rest).
Proof.
  enough (parse_chars (quote_units s ++ 34 :: rest) = Some (s, rest)
          /\ forall c, parse_chars (quote_units (c :: s) ++ 34 :: rest)
                       = Some (c :: s, rest)) as [H _] by exact H.
  induction s as [|d s [IH1 IH2]].
  - split; [reflexivity|].
    intros c. cbn [quote_units]. rewrite parse_chars_quote_unit. reflexivity.
  - split; [apply IH2|].
    intros c. cbn [quote_units].
    destruct (is_high c && is_low d) eqn:E.
    + cbn [app]. rewrite (parse_chars_pair _ _ _ E), IH1. reflexivity.
    + rewrite <- app_assoc, parse_chars_quote_unit.
      change (match s with
              | [] => quote_unit d
              | d0 :: r' =>
                  if is_high d && is_low d0 then d :: d0 :: quote_units r'
                  else quote_unit d ++ quote_units s
              end) with (quote_units (d :: s)).
      rewrite IH2. reflexivity.
Qed.

Lemma quote_app (s rest : jsstring) :
  quote s ++ rest = 34 :: quote_units s ++ 34 :: rest.
Proof. unfold quote. cbn [app]. rewrite <- app_assoc. reflexivity. Qed.

Lemma skip_ws_stop (c : N) (r : jsstring) :
  is_ws c = false -> skip_ws (c :: r) = c :: r.
Proof. intros H. cbn [skip_ws]. rewrite H. reflexivity. Qed.

Lemma parse_value_quote (f : nat) (s rest : jsstring) :
  parse_value (S f) (quote s ++ rest) = Some (VStr s, rest).
Proof.
  rewrite quote_app. cbn [parse_value].
  rewrite skip_ws_stop by reflexivity.
  change (34 =? 34) with true. cbv iota.
  rewrite parse_chars_quote_units. reflexivity.
Qed.

Lemma parse_members_step (f : nat) (k v tail : jsstring) :
  parse_members (S (S f)) (quote k ++ 58 :: quote v ++ tail)
  = match skip_ws tail with
    | 44 :: r4 =>
        match parse_members (S f) r4 with
        | Some (ms, rest) => Some ((k, VStr v) :: ms, rest)
        | None => None
        end
    | 125 :: rest => Some ([(k, VStr v)], rest)
    | _ => None
    end.
Proof.
  rewrite quote_app. cbn [parse_members].
  rewrite skip_ws_stop by reflexivity.
  rewrite parse_chars_quote_units.
  rewrite skip_ws_stop by reflexivity.
  rewrite parse_value_quote. reflexivity.
Qed.

Lemma parse_members_last (f : nat) (k v rest : jsstring) :
  parse_members (S (S f)) (quote k ++ 58 :: quote v ++ 125 :: rest)
  = Some ([(k, VStr v)], rest).
Proof.
  rewrite parse_members_step, skip_ws_stop by reflexivity. reflexivity.
Qed.

Lemma parse_members_more (f : nat) (k v more : jsstring) :
  parse_members (S (S f)) (quote k ++ 58 :: quote v ++ 44 :: more)
  = match parse_members (S f) more with
    | Some (ms, rest) => Some ((k, VStr v) :: ms, rest)
    | None => None
    end.
Proof.
  rewrite parse_members_step, skip_ws_stop by reflexivity. reflexivity.
Qed.

Lemma stringify_note_app (n : Note) (rest : jsstring) :
  stringify_note n ++ rest
  = 123 :: quote (js "uuid") ++ 58 :: quote (uuid n)
    ++ 44 :: quote (js "title") ++ 58 :: quote (title n)
    ++ 44 :: quote (js "content") ++ 58 :: quote (content n)
    ++ 44 :: quote (js "color") ++ 58 :: quote (color n)
    ++ 125 :: rest.
Proof.
  unfold stringify_note.
  change (js "{") with [123]. change (js ":") with [58].
  change (js ",") with [44]. change (js "}") with [125].
  repeat (rewrite <- ?app_assoc; cbn [app]). reflexivity.
Qed.

Lemma parse_value_note (f : nat) (n : Note) (rest : jsstring) :
  parse_value (6 + f) (stringify_note n ++ rest) = Some (note_value n, rest).
Proof.
  rewrite stringify_note_app.
  change (6 + f)%nat with (S (S (S (S (S (S f)))))).
  cbn [parse_value].
  rewrite skip_ws_stop by reflexivity.
  change (123 =? 34) with false. change (123 =? 91) with false.
  change (123 =? 123) with true. cbv iota.
  rewrite quote_app at 1. rewrite skip_ws_stop by reflexivity.
  rewrite !parse_members_more, parse_members_last. reflexivity.
Qed.

Lemma join_cons_app (n : Note) (notes : list Note) (rest : jsstring) :
  join [44] (map stringify_note (n :: notes)) ++ 93 :: rest
  = stringify_note n ++
    match notes with
    | [] => 93 :: rest
    | _ :: _ => 44 :: join [44] (map stringify_note notes) ++ 93 :: rest
    end.
Proof.
  destruct notes as [|m notes]; [reflexivity|].
  cbn [map join]. rewrite <- !app_assoc. reflexivity.
Qed.

Lemma parse_elements_notes (notes : list Note) :
  forall (n : Note) (f : nat) (rest : jsstring),
    (List.length notes + 7 <= f)%nat ->
    parse_elements f (join [44] (map stringify_note (n :: notes)) ++ 93 :: rest)
    = Some (map note_value (n :: notes), rest).
Proof.
  induction notes as [|m notes IH]; intros n f rest Hf.
  - rewrite join_cons_app.
    destruct f as [|f]; [cbn in Hf; lia|]. cbn [List.length] in Hf.
    replace f with (6 + (f - 6))%nat by lia.
    cbn [parse_elements]. rewrite parse_value_note.
    rewrite skip_ws_stop by reflexivity. reflexivity.
  - rewrite join_cons_app.
    destruct f as [|f]; [cbn in Hf; lia|]. cbn [List.length] in Hf.
    cbn [parse_elements].
    replace f with (6 + (f - 6))%nat at 1 by lia.
    rewrite parse_value_note.
    rewrite skip_ws_stop by reflexivity.
    rewrite IH by lia. reflexivity.
Qed.

Lemma length_stringify_note (n : Note) :
  (8 <= List.length (stringify_note n))%nat.
Proof.
  unfold stringify_note. rewrite !length_app. unfold quote.
  cbn [List.length]. rewrite !length_app. cbn. lia.
Qed.

Lemma length_join_notes (notes : list Note) :
  (8 * List.length notes
   <= List.length (join [44%N] (map stringify_note notes)))%nat.
Proof.
  induction notes as [|n [|m notes] IH].
  - cbn. lia.
  - cbn [map join List.length]. pose proof (length_stringify_note n). lia.
  - change (join [44] (map stringify_note (n :: m :: notes)))
      with (stringify_note n ++ [44] ++ join [44] (map stringify_note (m :: notes))).
    rewrite !length_app. pose proof (length_stringify_note n).
    cbn [List.length] in *. lia.
Qed.

(** [JSON.parse(JSON.stringify(notes))] is the array of the notes' objects. *)
Lemma parse_stringify (notes : list Note) :
  parse (JSON_stringify notes) = Some (VArr (map note_value notes)).
Proof.
  destruct notes as [|n notes]; [reflexivity|].
  unfold parse, JSON_stringify.
  change (js "[") with [91]. change (js "]") with [93]. change (js ",") with [44].
  cbn [app].
  set (body := join [44] (map stringify_note (n :: notes)) ++ [93]).
  assert (List.length notes + 7 <= List.length (91%N :: body))%nat as Hfuel.
  { unfold body. cbn [List.length]. rewrite length_app.
    pose proof (length_join_notes (n :: notes)).
    cbn [List.length] in *. lia. }
  revert Hfuel. generalize (List.length (91 :: body)). intros fuel Hfuel.
  cbn [parse_value].
  rewrite skip_ws_stop by reflexivity.
  change (91 =? 34) with false. change (91 =? 91) with true. cbv iota.
  assert (exists tail, body = 123 :: tail) as [tail Et].
  { unfold body. rewrite join_cons_app, stringify_note_app.
    eexists. reflexivity. }
  rewrite Et, skip_ws_stop by reflexivity. cbv iota. rewrite <- Et.
  unfold body. rewrite parse_elements_notes by exact Hfuel.
  reflexivity.
Qed.
End JsonFacts.

(* ================================================================== *)
(** ** The store, statement by statement *)

Lemma str_eqb_eq (s t : jsstring) : str_eqb s t = true <-> s = t.
Proof.
  revert t. induction s as [|c s IH]; intros [|d t]; cbn [str_eqb];
    try (split; [discriminate|discriminate]); [tauto|].
  rewrite andb_true_iff, N.eqb_eq, IH. split.
  - intros [-> ->]. reflexivity.
  - intros E. injection E. auto.
Qed.

Lemma str_eqb_refl (s : jsstring) : str_eqb s s = true.
Proof. apply str_eqb_eq. reflexivity. Qed.

Lemma str_eqb_neq (s t : jsstring) : str_eqb s t = false <-> s <> t.
Proof.
  rewrite <- str_eqb_eq. destruct (str_eqb s t); split; congruence.
Qed.

Lemma lookup_store (key blob : jsstring) (ls : list (jsstring * jsstring)) :
  lookup key (store key blob ls) = Some blob.
Proof.
  induction ls as [|[k v] ls IH]; cbn [store lookup].
  - rewrite str_eqb_refl. reflexivity.
  - destruct (str_eqb k key) eqn:E; cbn [lookup]; rewrite E; auto.
Qed.

Lemma complete_note_value (n : Note) : complete (note_value n) n.
Proof.
  exists [(js "uuid", VStr (uuid n)); (js "title", VStr (title n));
          (js "content", VStr (content n)); (js "color", VStr (color n))].
  split; [reflexivity|]. intros target. destruct n. reflexivity.
Qed.

Lemma complete_fun (v : value) (n1 n2 : Note) :
  complete v n1 -> complete v n2 -> n1 = n2.
Proof.
  intros (p1 & E1 & A1) (p2 & E2 & A2).
  rewrite E1 in E2. injection E2 as <-.
  specialize (A1 n1). specialize (A2 n1). congruence.
Qed.

Lemma stored_text_store (notes : list Note) (ls : list (jsstring * jsstring)) :
  stored_text (store NOTES_LOCAL_STORAGE_KEY (JSON_stringify notes) ls)
  = JSON_stringify notes.
Proof. unfold stored_text. rewrite lookup_store. reflexivity. Qed.

(** After [saveNotes notes] the storage holds [notes]. *)
Lemma holds_store (notes : list Note) (ls : list (jsstring * jsstring)) :
  holds (store NOTES_LOCAL_STORAGE_KEY (JSON_stringify notes) ls) notes.
Proof.
  exists (map note_value notes). split.
  - rewrite stored_text_store. apply JsonFacts.parse_stringify.
  - induction notes; constructor; auto using complete_note_value.
Qed.

Lemma holds_absent (ls : list (jsstring * jsstring)) :
  lookup NOTES_LOCAL_STORAGE_KEY ls = None -> holds ls [].
Proof.
  intros E. exists []. unfold stored_text. rewrite E. split; [reflexivity|constructor].
Qed.

Lemma holds_empty_text (ls : list (jsstring * jsstring)) :
  lookup NOTES_LOCAL_STORAGE_KEY ls = Some [] -> holds ls [].
Proof.
  intros E. exists []. unfold stored_text. rewrite E. split; [reflexivity|constructor].
Qed.

Lemma Forall2_complete_fun (elems : list value) (n1 n2 : list Note) :
  Forall2 complete elems n1 -> Forall2 complete elems n2 -> n1 = n2.
Proof.
  intros F1. revert n2.
  induction F1 as [|v n elems n1 C F1 IH]; intros n2 F2.
  - inversion F2. reflexivity.
  - inversion F2 as [|v' n' elems' n2' C' F2' E1 E2]; subst.
    f_equal; [exact (complete_fun C C') | apply IH, F2'].
Qed.

Lemma holds_fun (ls : list (jsstring * jsstring)) (n1 n2 : list Note) :
  holds ls n1 -> holds ls n2 -> n1 = n2.
Proof.
  intros (e1 & P1 & F1) (e2 & P2 & F2).
  rewrite P1 in P2. injection P2 as E. subst e2.
  exact (Forall2_complete_fun F1 F2).
Qed.

Lemma fromObj_complete (v : value) (note : Note) us ls n d t :
  complete v note ->
  fromObj v (mkWorld ls us n d t) = (Ok note, mkWorld ls us (S n) d t).
Proof.
  intros (props & E & A). unfold fromObj, new_Note, randomUUID, bind, ret.
  cbn. rewrite E, A. reflexivity.
Qed.

Lemma mapM_fromObj (elems : list value) (notes : list Note) :
  Forall2 complete elems notes ->
  forall ls us n d t,
    mapM fromObj elems (mkWorld ls us n d t)
    = (Ok notes, mkWorld ls us (n + List.length notes) d t).
Proof.
  induction 1 as [|v note elems notes C F IH]; intros ls us n d t.
  - cbn. rewrite Nat.add_0_r. reflexivity.
  - cbn [mapM]. unfold bind at 1. rewrite (fromObj_complete _ _ _ _ _ C).
    unfold bind at 1. rewrite IH. cbn [ret List.length].
    rewrite Nat.add_succ_r. reflexivity.
Qed.

(** [getNotes] on a storage that holds [notes]: it returns them, and has
    called [new Note()] once for each. *)
Lemma getNotes_holds (notes : list Note) ls us n d t :
  holds ls notes ->
  getNotes (mkWorld ls us n d t)
  = (Ok notes, mkWorld ls us (n + List.length notes) d t).
Proof.
  intros (elems & P & F). unfold getNotes, getItem, bind at 1.
  cbn [localStorage]. fold (stored_text ls).
  unfold bind, JSON_parse. rewrite P. unfold ret at 1.
  apply mapM_fromObj, F.
Qed.

Lemma saveNotes_run (notes : list Note) ls us n d t :
  saveNotes notes (mkWorld ls us n d t)
  = (Ok tt,
     mkWorld (store NOTES_LOCAL_STORAGE_KEY (JSON_stringify notes) ls) us n d
             (t ++ [ESetItem NOTES_LOCAL_STORAGE_KEY (JSON_stringify notes)])).
Proof. reflexivity. Qed.

(* ================================================================== *)
(** ** The view, statement by statement *)

Lemma bind_run {A B} (m : M A) (k : A -> M B) (w w' : World) (a : A) :
  m w = (Ok a, w') -> bind m k w = k a w'.
Proof. intros E. unfold bind. rewrite E. reflexivity. Qed.

(** Rewrite the call at the head of a sequence with its run lemma. *)
Tactic Notation "call" uconstr(E) := rewrite (@bind_run _ _ _ _ _ _ _ E).

(** Normal form of a world built by the setters. *)
Ltac world :=
  unfold with_localStorage, with_drawn, with_dom, with_trace;
  cbn [localStorage uuids drawn dom trace].

(** Run the host's statements up to the next call of a function of the
    script. *)
Ltac run_step :=
  cbn -[getNotes saveNotes saveNewNote updateDisplayedNotes deleteNote
        deleteAllNotes add_note_from_inputs trim or_else display
        JSON_stringify store Nat.add List.length app js placeholder
        AppJs.prompt_text AppJs.refusal_text];
  world.

Section ViewFacts.

Variable card : Note -> jsstring.

Lemma updateDisplayedNotes_run (notes : list Note) ls us n d t :
  holds ls notes ->
  updateDisplayedNotes card (mkWorld ls us n d t)
  = (Ok tt,
     mkWorld ls us (n + List.length notes)
             (with_notesHtml (display card (searchTxt d) notes) d) t).
Proof.
  intros H. unfold updateDisplayedNotes, bind, getDom. cbn [dom].
  rewrite (getNotes_holds _ _ _ _ H). unfold display.
  destruct (filter (matches (searchTxt d)) notes); reflexivity.
Qed.

Lemma saveNewNote_run (notes : list Note) (note : Note) ls us n d t :
  holds ls notes ->
  saveNewNote note (mkWorld ls us n d t)
  = (Ok tt,
     mkWorld (store NOTES_LOCAL_STORAGE_KEY
                    (JSON_stringify (notes ++ [note])) ls)
             us (n + List.length notes) d
             (t ++ [ESetItem NOTES_LOCAL_STORAGE_KEY
                             (JSON_stringify (notes ++ [note]))])).
Proof.
  intros H. unfold saveNewNote, bind.
  rewrite (getNotes_holds _ _ _ _ H). apply saveNotes_run.
Qed.

Lemma deleteNote_run (notes : list Note) (id : jsstring) ls us n d t :
  holds ls notes ->
  let newNotes := filter (keeps id) notes in
  deleteNote card id (mkWorld ls us n d t)
  = (Ok tt,
     mkWorld (store NOTES_LOCAL_STORAGE_KEY (JSON_stringify newNotes) ls)
             us (n + List.length notes + List.length newNotes)
             (with_notesHtml (display card (searchTxt d) newNotes) d)
             (t ++ [ESetItem NOTES_LOCAL_STORAGE_KEY
                             (JSON_stringify newNotes)])).
Proof.
  intros H newNotes. unfold deleteNote, bind at 1.
  rewrite (getNotes_holds _ _ _ _ H).
  unfold bind. rewrite saveNotes_run.
  apply updateDisplayedNotes_run, holds_store.
Qed.

Lemma deleteAllNotes_run ls us n d t :
  deleteAllNotes card (mkWorld ls us n d t)
  = (Ok tt,
     mkWorld (store NOTES_LOCAL_STORAGE_KEY (JSON_stringify []) ls)
             us n (with_notesHtml placeholder d)
             (t ++ [ESetItem NOTES_LOCAL_STORAGE_KEY (JSON_stringify [])])).
Proof.
  unfold deleteAllNotes, bind. rewrite saveNotes_run.
  rewrite (updateDisplayedNotes_run _ _ _ _ (holds_store [] ls)).
  cbn [List.length]. rewrite Nat.add_0_r. reflexivity.
Qed.

Lemma add_note_from_inputs_run (notes : list Note) ls us n d t :
  holds ls notes ->
  let note := mkNote (us n) (or_else (Some (trim (inpTitle d))) (js "Untitled"))
                     (txtContent d) (selectorColor d) in
  let d1 := with_txtContent [] (with_addBtnDisabled true d) in
  add_note_from_inputs card (mkWorld ls us n d t)
  = (Ok tt,
     mkWorld (store NOTES_LOCAL_STORAGE_KEY
                    (JSON_stringify (notes ++ [note])) ls)
             us (S n + List.length notes + List.length (notes ++ [note]))
             (with_notesHtml (display card (searchTxt d) (notes ++ [note])) d1)
             (t ++ [ESetItem NOTES_LOCAL_STORAGE_KEY
                             (JSON_stringify (notes ++ [note]))])).
Proof.
  intros H note d1. unfold add_note_from_inputs.
  run_step. call (saveNewNote_run _ _ _ _ _ H).
  run_step. rewrite (updateDisplayedNotes_run _ _ _ _ (holds_store _ ls)).
  reflexivity.
Qed.

End ViewFacts.

(* ================================================================== *)
(** ** The note store *)

(** C3.  Writing a collection and reading it back gives the collection:
    the same notes, in the same order, equal in [uuid], [title], [content]
    and [color]. *)
Theorem replaceAll_listAll_roundtrip (notes : list Note) (w : World) :
  eval (saveNotes notes ;; getNotes) w = Ok notes.
Proof.
  destruct w as [ls us n d t]. unfold eval.
  call (saveNotes_run notes ls us n d t).
  rewrite (getNotes_holds _ _ _ _ (holds_store notes ls)). reflexivity.
Qed.

(** C7.  When nothing was ever stored under the notes key, [getNotes]
    returns the empty array; it does not throw. *)
Theorem listAll_absent_is_empty (w : World) :
  never_stored w -> eval getNotes w = Ok [].
Proof.
  destruct w as [ls us n d t]. unfold never_stored. cbn [localStorage].
  intros H. unfold eval. rewrite (getNotes_holds _ _ _ _ (holds_absent _ H)).
  reflexivity.
Qed.

(** C10.  A stored empty string is falsy, so [getNotes] parses the default
    text and returns the empty array, as it does for an absent entry. *)
Theorem listAll_empty_string_is_empty (w : World) :
  lookup NOTES_LOCAL_STORAGE_KEY (localStorage w) = Some [] ->
  eval getNotes w = Ok [].
Proof.
  destruct w as [ls us n d t]. cbn [localStorage].
  intros H. unfold eval.
  rewrite (getNotes_holds _ _ _ _ (holds_empty_text _ H)). reflexivity.
Qed.

Section StoreClaims.

Variable card : Note -> jsstring.

Lemma keeps_all (id : jsstring) (notes : list Note) :
  Forall (fun note => uuid note <> id) notes -> filter (keeps id) notes = notes.
Proof.
  induction 1 as [|note notes H F IH]; [reflexivity|].
  cbn [filter]. unfold keeps at 1.
  apply str_eqb_neq in H. rewrite H. cbn [negb]. f_equal. exact IH.
Qed.

Lemma keeps_idem (id : jsstring) (notes : list Note) :
  filter (keeps id) (filter (keeps id) notes) = filter (keeps id) notes.
Proof.
  induction notes as [|note notes IH]; [reflexivity|].
  cbn [filter]. destruct (keeps id note) eqn:E; [|exact IH].
  cbn [filter]. rewrite E, IH. reflexivity.
Qed.

(** C5.  On a storage that holds [notes], [deleteNote id] returns normally
    and leaves exactly the notes whose [uuid] is not [id], in their order;
    when no note has that [uuid] the collection is the same, and a second
    call changes nothing more. *)
Theorem removeById_filters (id : jsstring) (notes : list Note) (w : World) :
  holds (localStorage w) notes ->
  eval (deleteNote card id) w = Ok tt
  /\ eval (deleteNote card id ;; getNotes) w = Ok (filter (keeps id) notes)
  /\ (forall note, In note (filter (keeps id) notes)
                   <-> In note notes /\ uuid note <> id)
  /\ (Forall (fun note => uuid note <> id) notes ->
      eval (deleteNote card id ;; getNotes) w = Ok notes)
  /\ eval (deleteNote card id ;; deleteNote card id ;; getNotes) w
     = eval (deleteNote card id ;; getNotes) w.
Proof.
  destruct w as [ls us n d t]. cbn [localStorage]. intros H.
  pose proof (deleteNote_run card id us n d t H) as R. cbn zeta in R.
  assert (eval (deleteNote card id ;; getNotes) (mkWorld ls us n d t)
          = Ok (filter (keeps id) notes)) as E.
  { unfold eval. call R.
    rewrite (getNotes_holds _ _ _ _ (holds_store _ ls)). reflexivity. }
  split; [|split; [exact E|split; [|split]]].
  - unfold eval. rewrite R. reflexivity.
  - intros note. rewrite filter_In. unfold keeps.
    rewrite negb_true_iff, str_eqb_neq. reflexivity.
  - intros F. rewrite E, (keeps_all F). reflexivity.
  - rewrite E. unfold eval. call R.
    call (deleteNote_run card id us
            (n + List.length notes + List.length (filter (keeps id) notes))
            (with_notesHtml
               (display card (searchTxt d) (filter (keeps id) notes)) d)
            (t ++ [ESetItem NOTES_LOCAL_STORAGE_KEY
                            (JSON_stringify (filter (keeps id) notes))])
            (holds_store (filter (keeps id) notes) ls)).
    rewrite (getNotes_holds _ _ _ _ (holds_store _ _)), keeps_idem.
    reflexivity.
Qed.

End StoreClaims.

Section Sequences.

Variable card : Note -> jsstring.

Lemma filter_filter {A} (p q : A -> bool) (l : list A) :
  filter p (filter q l) = filter (fun x => q x && p x) l.
Proof.
  induction l as [|x l IH]; [reflexivity|].
  cbn [filter]. destruct (q x); cbn [filter andb]; rewrite IH; reflexivity.
Qed.

(** The storage after a sequence of operations holds what is left of the
    notes it held before, followed by the survivors of the sequence. *)
Lemma run_holds (ops : list op) :
  forall (notes0 : list Note) ls us n d t,
    holds ls notes0 ->
    exists ls' n' d' t',
      run card ops (mkWorld ls us n d t) = (Ok tt, mkWorld ls' us n' d' t')
      /\ holds ls' (filter (fun note => negb (removed_in ops (uuid note))) notes0
                    ++ survivors ops).
Proof.
  induction ops as [|[note|id] ops IH]; intros notes0 ls us n d t H.
  - exists ls, n, d, t. split; [reflexivity|].
    cbn [removed_in existsb negb survivors].
    rewrite app_nil_r.
    replace (filter (fun _ => true) notes0) with notes0; [exact H|].
    clear. induction notes0; cbn; congruence.
  - cbn [run run_op].
    call (saveNewNote_run note us n d t H).
    edestruct (IH (notes0 ++ [note])) as (ls' & n' & d' & t' & R & H');
      [apply holds_store|].
    exists ls', n', d', t'. split; [exact R|].
    rewrite filter_app in H'. cbn [filter] in H'.
    cbn [survivors].
    change (removed_in (Append note :: ops)) with (removed_in ops).
    destruct (removed_in ops (uuid note)); cbn [negb] in H'.
    + rewrite app_nil_r in H'. exact H'.
    + rewrite <- app_assoc in H'. exact H'.
  - cbn [run run_op].
    call (deleteNote_run card id us n d t H).
    edestruct (IH (filter (keeps id) notes0)) as (ls' & n' & d' & t' & R & H');
      [apply holds_store|].
    exists ls', n', d', t'. split; [exact R|].
    rewrite filter_filter in H'. cbn [survivors].
    erewrite filter_ext; [exact H'|].
    intros note'. cbn [removed_in existsb]. unfold keeps.
    rewrite negb_orb. reflexivity.
Qed.

Lemma survivors_appended (ops : list op) (note : Note) :
  In note (survivors ops) -> In note (appended ops).
Proof.
  induction ops as [|[a|id] ops IH]; cbn [survivors appended]; auto.
  destruct (removed_in ops (uuid a)); cbn [In]; tauto.
Qed.

Lemma survivors_NoDup (ops : list op) :
  NoDup (map uuid (appended ops)) -> NoDup (map uuid (survivors ops)).
Proof.
  induction ops as [|[a|id] ops IH]; cbn [survivors appended map]; auto.
  intros D. inversion D as [|x l Hx D']; subst.
  destruct (removed_in ops (uuid a)); [auto|].
  cbn [map]. constructor; [|auto].
  intros I. apply Hx. apply in_map_iff in I. destruct I as (m & E & I).
  apply in_map_iff. exists m. split; [exact E|].
  apply survivors_appended, I.
Qed.

(** C1, as the store has it.  After any sequence of [saveNewNote] and
    [deleteNote] on a storage where nothing was stored, [getNotes] returns
    the surviving notes in the order of their appends; no two of them share
    a [uuid] when no two appended notes do. *)
Theorem listAll_after_operations (ops : list op) (w : World) :
  never_stored w ->
  eval (run card ops ;; getNotes) w = Ok (survivors ops)
  /\ (NoDup (map uuid (appended ops)) -> NoDup (map uuid (survivors ops))).
Proof.
  destruct w as [ls us n d t]. unfold never_stored. cbn [localStorage].
  intros H. split; [|apply survivors_NoDup].
  destruct (run_holds ops us n d t (holds_absent _ H))
    as (ls' & n' & d' & t' & R & H').
  unfold eval. call R. cbn [filter app] in H'.
  rewrite (getNotes_holds _ _ _ _ H'). reflexivity.
Qed.

End Sequences.

(* ================================================================== *)
(** ** The view *)

Section ViewClaims.

Variable card : Note -> jsstring.

Lemma matches_empty (note : Note) : matches [] note = true.
Proof. unfold matches. cbn [toLowerCase map includes startsWith]. destruct (title note); reflexivity. Qed.

Lemma filter_matches_empty (notes : list Note) :
  filter (matches []) notes = notes.
Proof.
  induction notes as [|note notes IH]; [reflexivity|].
  cbn [filter]. rewrite matches_empty, IH. reflexivity.
Qed.

(** C8.  On a storage that holds [notes], [updateDisplayedNotes] returns
    normally; with the empty search text every note matches and, when there
    is one, all the cards are shown in stored order; whenever no note
    matches, and so also when there is no note, the container shows the
    placeholder. *)
Theorem render_empty_query_and_placeholder (notes : list Note) (w : World) :
  holds (localStorage w) notes ->
  let shown := notesHtml (dom (exec (updateDisplayedNotes card) w)) in
  eval (updateDisplayedNotes card) w = Ok tt
  /\ (searchTxt (dom w) = [] ->
      filter (matches (searchTxt (dom w))) notes = notes)
  /\ (searchTxt (dom w) = [] -> notes <> [] ->
      shown = join nl (map card notes))
  /\ (filter (matches (searchTxt (dom w))) notes = [] -> shown = placeholder)
  /\ (notes = [] -> shown = placeholder).
Proof.
  destruct w as [ls us n d t]. cbn [localStorage dom]. intros H.
  unfold eval, exec. rewrite (updateDisplayedNotes_run card us n d t H).
  cbn [fst snd dom with_notesHtml notesHtml]. unfold display.
  split; [reflexivity|split; [|split; [|split]]].
  - intros ->. apply filter_matches_empty.
  - intros -> Hne. rewrite filter_matches_empty.
    destruct notes; [congruence|reflexivity].
  - intros ->. reflexivity.
  - intros ->. reflexivity.
Qed.

End ViewClaims.

(* ================================================================== *)
(** ** The second controller: the "delete all" button *)

Lemma updateDeleteAllNotesButtonVisibility_run (notes : list Note) ls us n d t :
  holds ls notes ->
  Part000.updateDeleteAllNotesButtonVisibility (mkWorld ls us n d t)
  = (Ok tt,
     mkWorld ls us (n + List.length notes)
             (with_delAllHidden (Nat.eqb (List.length notes) 0) d) t).
Proof.
  intros H. unfold Part000.updateDeleteAllNotesButtonVisibility.
  call (getNotes_holds us n d t H).
  destruct (Nat.eqb (List.length notes) 0); reflexivity.
Qed.

Lemma shown_iff_after_update (notes : list Note) ls us n d t :
  holds ls notes ->
  delAll_shown_iff_notes
    (mkWorld ls us n (with_delAllHidden (Nat.eqb (List.length notes) 0) d) t).
Proof.
  intros H. exists notes. split; [exact H|].
  cbn [dom with_delAllHidden delAllHidden].
  destruct notes; cbn; split; congruence.
Qed.

(** C9.  On a storage that holds a collection, the script's last two
    lines, the add listener, a confirmed single delete and a confirmed
    delete-all each return normally and leave the "delete all" button shown
    exactly when the storage then holds a note. *)
Theorem delete_all_button_follows_store (notes : list Note) (w : World) :
  holds (localStorage w) notes ->
  (eval Part000.on_load w = Ok tt
   /\ delAll_shown_iff_notes (exec Part000.on_load w))
  /\ (eval Part000.on_btn_add_note_click w = Ok tt
      /\ delAll_shown_iff_notes (exec Part000.on_btn_add_note_click w))
  /\ (forall id,
        eval (Part000.handleDeleteNoteLinkClick id true) w = Ok tt
        /\ delAll_shown_iff_notes
             (exec (Part000.handleDeleteNoteLinkClick id true) w))
  /\ (eval (Part000.on_btn_delete_all_notes_click true) w = Ok tt
      /\ delAll_shown_iff_notes
           (exec (Part000.on_btn_delete_all_notes_click true) w)
      /\ delAllHidden
           (dom (exec (Part000.on_btn_delete_all_notes_click true) w)) = true).
Proof.
  destruct w as [ls us n d t]. cbn [localStorage]. intros H.
  unfold eval, exec. split; [|split; [|split]].
  - unfold Part000.on_load, Part000.updateDisplayedNotes.
    call (updateDisplayedNotes_run Part000.card us n d t H).
    rewrite (updateDeleteAllNotesButtonVisibility_run _ _ _ _ H).
    cbn [fst snd]. split; [reflexivity|].
    apply shown_iff_after_update, H.
  - unfold Part000.on_btn_add_note_click.
    pose proof (add_note_from_inputs_run Part000.card us n d t H) as R.
    cbn zeta in R. call R.
    rewrite (updateDeleteAllNotesButtonVisibility_run _ _ _ _ (holds_store _ ls)).
    cbn [fst snd]. split; [reflexivity|].
    apply shown_iff_after_update, holds_store.
  - intros id. unfold Part000.handleDeleteNoteLinkClick, Part000.deleteNote.
    run_step.
    pose proof (deleteNote_run Part000.card id us n d
                  (t ++ [EConfirm (js "Are you sure you want to delete this note?") true]) H) as R.
    cbn zeta in R. call R.
    rewrite (updateDeleteAllNotesButtonVisibility_run _ _ _ _ (holds_store _ ls)).
    cbn [fst snd]. split; [reflexivity|].
    apply shown_iff_after_update, holds_store.
  - unfold Part000.on_btn_delete_all_notes_click, Part000.deleteAllNotes.
    run_step.
    call (deleteAllNotes_run Part000.card ls us n d
            (t ++ [EConfirm (js "Are you sure you want to delete all your notes?") true])).
    rewrite (updateDeleteAllNotesButtonVisibility_run _ _ _ _ (holds_store [] ls)).
    cbn [fst snd]. split; [reflexivity|]. split; [|reflexivity].
    apply (shown_iff_after_update _ _ _ _ (holds_store [] ls)).
Qed.

(* ================================================================== *)
(** ** The add button *)

Lemma trim_length_zero (text : jsstring) :
  Nat.eqb (List.length (trim text)) 0 = true <-> trim text = [].
Proof. destruct (trim text); cbn; split; congruence. Qed.

Lemma getNotes_syntax_error ls us n d t :
  parse (stored_text ls) = None ->
  getNotes (mkWorld ls us n d t) = (Throw SyntaxError, mkWorld ls us n d t).
Proof.
  intros P. unfold getNotes, getItem, bind at 1. cbn [localStorage].
  fold (stored_text ls). unfold bind, JSON_parse. rewrite P. reflexivity.
Qed.

Lemma add_note_from_inputs_throws (card : Note -> jsstring) ls us n d t :
  parse (stored_text ls) = None ->
  add_note_from_inputs card (mkWorld ls us n d t)
  = (Throw SyntaxError, mkWorld ls us (S n) (with_addBtnDisabled true d) t).
Proof.
  intros P. unfold add_note_from_inputs. run_step.
  unfold saveNewNote. unfold bind.
  rewrite (getNotes_syntax_error _ _ _ _ _ P). reflexivity.
Qed.

Lemma on_btn_add_note_click_run (notes : list Note) ls us n d t :
  holds ls notes ->
  let note := mkNote (us n) (or_else (Some (trim (inpTitle d))) (js "Untitled"))
                     (txtContent d) (selectorColor d) in
  let d1 := with_txtContent [] (with_addBtnDisabled true d) in
  let all := notes ++ [note] in
  Part000.on_btn_add_note_click (mkWorld ls us n d t)
  = (Ok tt,
     mkWorld (store NOTES_LOCAL_STORAGE_KEY (JSON_stringify all) ls)
             us
             (S n + List.length notes + List.length all + List.length all)
             (with_delAllHidden (Nat.eqb (List.length all) 0)
                (with_notesHtml (display Part000.card (searchTxt d) all) d1))
             (t ++ [ESetItem NOTES_LOCAL_STORAGE_KEY (JSON_stringify all)])).
Proof.
  intros H note d1 all. unfold Part000.on_btn_add_note_click.
  pose proof (add_note_from_inputs_run Part000.card us n d t H) as R.
  cbn zeta in R. call R.
  apply updateDeleteAllNotesButtonVisibility_run, holds_store.
Qed.

(** C4, as the scripts have it.  The listener of the add button does not
    look at the content.  What keeps a blank note out is the button: the
    content's [input] listener disables it exactly when the trimmed content
    is empty, and a click on a disabled button changes nothing.  When the
    listener runs on a storage that holds [notes], it appends a note with a
    fresh [uuid], the trimmed title or ["Untitled"], the content as typed
    and the chosen colour, leaves the button disabled and the content input
    empty; when it fails to read the storage it throws before it clears the
    input. *)
Theorem add_button_gate_and_listener (w : World) :
  (forall text,
      addBtnDisabled (dom (exec (type_content text) w)) = true
      <-> trim text = [])
  /\ (forall text listener,
        trim text = [] ->
        (type_content text ;; click_add listener) w = type_content text w)
  /\ (forall notes,
        holds (localStorage w) notes ->
        let note :=
          mkNote (uuids w (drawn w))
                 (or_else (Some (trim (inpTitle (dom w)))) (js "Untitled"))
                 (txtContent (dom w)) (selectorColor (dom w)) in
        (trim (inpTitle (dom w)) = [] -> title note = js "Untitled")
        /\ eval (AppJs.on_addBtn_click ;; getNotes) w = Ok (notes ++ [note])
        /\ eval (Part000.on_btn_add_note_click ;; getNotes) w
           = Ok (notes ++ [note])
        /\ txtContent (dom (exec AppJs.on_addBtn_click w)) = []
        /\ txtContent (dom (exec Part000.on_btn_add_note_click w)) = []
        /\ addBtnDisabled (dom (exec AppJs.on_addBtn_click w)) = true
        /\ addBtnDisabled (dom (exec Part000.on_btn_add_note_click w)) = true)
  /\ (parse (stored_text (localStorage w)) = None ->
      eval AppJs.on_addBtn_click w = Throw SyntaxError
      /\ localStorage (exec AppJs.on_addBtn_click w) = localStorage w
      /\ txtContent (dom (exec AppJs.on_addBtn_click w)) = txtContent (dom w)).
Proof.
  destruct w as [ls us n d t]. split; [|split; [|split]].
  - intros text. unfold exec. cbn -[trim]. apply trim_length_zero.
  - intros text listener E. unfold type_content, on_content_input, click_add.
    cbn -[trim]. rewrite E. reflexivity.
  - intros notes H note. cbn [localStorage uuids drawn dom] in H, note.
    pose proof (add_note_from_inputs_run AppJs.card us n d t H) as RA.
    pose proof (on_btn_add_note_click_run us n d t H) as RP.
    cbn zeta in RA, RP. fold note in RA, RP.
    unfold AppJs.on_addBtn_click, eval, exec.
    split; [|split; [|split; [|split; [|split; [|split]]]]].
    + cbn [dom]. intros E. unfold note. cbn [title]. rewrite E. reflexivity.
    + call RA. rewrite (getNotes_holds _ _ _ _ (holds_store _ ls)). reflexivity.
    + call RP. rewrite (getNotes_holds _ _ _ _ (holds_store _ ls)). reflexivity.
    + rewrite RA. reflexivity.
    + rewrite RP. reflexivity.
    + rewrite RA. reflexivity.
    + rewrite RP. reflexivity.
  - cbn [localStorage dom]. intros P.
    unfold AppJs.on_addBtn_click, eval, exec.
    rewrite (add_note_from_inputs_throws AppJs.card _ us n d t P).
    repeat split.
Qed.

(* ================================================================== *)
(** ** The dialogs before a deletion *)

(** C6, as the scripts have it.  In the second controller the single-note
    delete and the delete-all ask with [confirm] before anything else: an
    accepted dialog is followed by the write, a declined one leaves the
    storage and the page as they were, and a declined single-note delete
    shows nothing more.  In [app.js] the delete-all asks with [prompt]:
    the word [delete] is followed by the write, anything else by the alert
    and nothing more. *)
Theorem destructive_actions_ask_first (notes : list Note) (w : World) :
  holds (localStorage w) notes ->
  (forall id,
      trace (exec (Part000.handleDeleteNoteLinkClick id true) w)
      = trace w
        ++ [EConfirm (js "Are you sure you want to delete this note?") true;
            ESetItem NOTES_LOCAL_STORAGE_KEY
                     (JSON_stringify (filter (keeps id) notes))]
      /\ Part000.handleDeleteNoteLinkClick id false w
         = (Ok tt,
            with_trace
              (trace w
               ++ [EConfirm (js "Are you sure you want to delete this note?")
                            false]) w))
  /\ (trace (exec (Part000.on_btn_delete_all_notes_click true) w)
      = trace w
        ++ [EConfirm (js "Are you sure you want to delete all your notes?")
                     true;
            ESetItem NOTES_LOCAL_STORAGE_KEY (JSON_stringify [])]
      /\ eval (Part000.on_btn_delete_all_notes_click false) w = Ok tt
      /\ localStorage (exec (Part000.on_btn_delete_all_notes_click false) w)
         = localStorage w
      /\ dom (exec (Part000.on_btn_delete_all_notes_click false) w) = dom w
      /\ exists rest,
          trace (exec (Part000.on_btn_delete_all_notes_click false) w)
          = trace w
            ++ EConfirm (js "Are you sure you want to delete all your notes?")
                        false :: rest)
  /\ (forall typed,
        (typed = Some (js "delete") ->
         trace (exec (AppJs.on_delAllBtn_click typed) w)
         = trace w ++ [EPrompt AppJs.prompt_text typed;
                       ESetItem NOTES_LOCAL_STORAGE_KEY (JSON_stringify [])])
        /\ (typed <> Some (js "delete") ->
            AppJs.on_delAllBtn_click typed w
            = (Ok tt,
               with_trace (trace w ++ [EPrompt AppJs.prompt_text typed;
                                       EAlert AppJs.refusal_text]) w))).
Proof.
  destruct w as [ls us n d t]. cbn [localStorage trace dom]. intros H.
  split; [|split].
  - intros id. split; [|reflexivity].
    unfold exec, Part000.handleDeleteNoteLinkClick, Part000.deleteNote.
    run_step.
    pose proof (deleteNote_run Part000.card id us n d
                  (t ++ [EConfirm (js "Are you sure you want to delete this note?") true]) H) as R.
    cbn zeta in R. call R.
    rewrite (updateDeleteAllNotesButtonVisibility_run _ _ _ _ (holds_store _ ls)).
    cbn [snd trace]. rewrite <- app_assoc. reflexivity.
  - split; [|repeat split; exists []; reflexivity].
    unfold exec, Part000.on_btn_delete_all_notes_click, Part000.deleteAllNotes.
    run_step.
    call (deleteAllNotes_run Part000.card ls us n d
            (t ++ [EConfirm (js "Are you sure you want to delete all your notes?") true])).
    rewrite (updateDeleteAllNotesButtonVisibility_run _ _ _ _ (holds_store [] ls)).
    cbn [snd trace]. rewrite <- app_assoc. reflexivity.
  - intros typed. split.
    + intros ->. unfold exec, AppJs.on_delAllBtn_click, AppJs.deleteAllNotes.
      run_step. rewrite str_eqb_refl.
      rewrite (deleteAllNotes_run AppJs.card ls us n d
                 (t ++ [EPrompt AppJs.prompt_text (Some (js "delete"))])).
      cbn [snd trace]. rewrite <- app_assoc. reflexivity.
    + intros Hne. unfold AppJs.on_delAllBtn_click.
      assert (match typed with
              | Some text => str_eqb text (js "delete")
              | None => false
              end = false) as E.
      { destruct typed as [text|]; [|reflexivity].
        apply str_eqb_neq. congruence. }
      unfold prompt, alert, emit, bind, ret. cbn [fst snd].
      rewrite E. world. rewrite <- app_assoc. reflexivity.
Qed.

(* ================================================================== *)
(** ** The search *)

(** C2, on the groceries note.  The filter lower-cases the search text and
    not the note: with the stored title [Groceries], the search text
    [Groceries] is compared as [groceries], matches neither field, and both
    scripts show the placeholder, although the lower-cased title contains
    the lower-cased search text.  A search text found in the stored
    lower-case content, [MILK], does show the card. *)
Theorem search_lowercases_only_the_query :
  includes (toLowerCase (title groceries)) (toLowerCase (js "Groceries")) = true
  /\ matches (js "Groceries") groceries = false
  /\ eval (add_groceries AppJs.on_addBtn_click ;; getNotes) fresh_page
     = Ok [groceries]
  /\ eval (add_groceries AppJs.on_addBtn_click ;;
           type_search AppJs.card (js "Groceries") ;;
           getDom notesHtml) fresh_page = Ok placeholder
  /\ eval (add_groceries Part000.on_btn_add_note_click ;;
           type_search Part000.card (js "Groceries") ;;
           getDom notesHtml) fresh_page = Ok placeholder
  /\ eval (add_groceries AppJs.on_addBtn_click ;;
           type_search AppJs.card (js "MILK") ;;
           getDom notesHtml) fresh_page = Ok (AppJs.card groceries).
Proof. vm_compute. repeat split. Qed.

(* ================================================================== *)
(** ** A whole visit of the second controller's page *)

Lemma delAll_shown_dom (ls : list (jsstring * jsstring)) us us' n n' d d' t t' :
  delAllHidden d' = delAllHidden d ->
  delAll_shown_iff_notes (mkWorld ls us n d t) ->
  delAll_shown_iff_notes (mkWorld ls us' n' d' t').
Proof.
  intros E (notes & H & I). exists notes. cbn [localStorage dom] in *.
  rewrite E. auto.
Qed.

(** Each action returns normally and keeps the two rules of the page: the
    "delete all" button follows the storage, and the add button is enabled
    only over a content that is not blank. *)
Lemma react_keeps_rules (a : action) (w : World) :
  delAll_shown_iff_notes w -> add_enabled_only_on_text w ->
  eval (react a) w = Ok tt
  /\ delAll_shown_iff_notes (exec (react a) w)
  /\ add_enabled_only_on_text (exec (react a) w).
Proof.
  destruct w as [ls us n d t]. intros V G.
  pose proof V as (notes & H & I). cbn [localStorage dom] in H, I.
  unfold add_enabled_only_on_text in *. cbn [dom] in G.
  unfold eval, exec.
  destruct a as [text|text|token|text| |id yes|yes]; cbn [react].
  - cbn. repeat split; [|exact G].
    eapply delAll_shown_dom; [|exact V]. reflexivity.
  - cbn -[trim]. repeat split.
    + eapply delAll_shown_dom; [|exact V]. reflexivity.
    + intros E. apply Nat.eqb_neq in E. destruct (trim text); [contradiction|discriminate].
  - cbn. repeat split; [|exact G].
    eapply delAll_shown_dom; [|exact V]. reflexivity.
  - unfold type_search, on_search_input. run_step.
    rewrite (updateDisplayedNotes_run Part000.card us n _ t H).
    cbn [fst snd dom]. repeat split; [|exact G].
    eapply delAll_shown_dom; [|exact V]. reflexivity.
  - unfold click_add. run_step. destruct (addBtnDisabled d) eqn:D.
    + cbn [ret fst snd dom]. repeat split; [exact V|].
      rewrite D. discriminate.
    + pose proof (on_btn_add_note_click_run us n d t H) as R.
      cbn zeta in R. rewrite R. cbn [fst snd dom]. repeat split.
      * apply shown_iff_after_update, holds_store.
      * cbn. discriminate.
  - destruct yes.
    + unfold Part000.handleDeleteNoteLinkClick, Part000.deleteNote. run_step.
      pose proof (deleteNote_run Part000.card id us n d
                    (t ++ [EConfirm (js "Are you sure you want to delete this note?") true]) H) as R.
      cbn zeta in R. call R.
      rewrite (updateDeleteAllNotesButtonVisibility_run _ _ _ _ (holds_store _ ls)).
      cbn [fst snd dom]. repeat split; [|exact G].
      apply shown_iff_after_update, holds_store.
    + cbn. repeat split; [|exact G].
      eapply delAll_shown_dom; [|exact V]. reflexivity.
  - destruct yes.
    + unfold Part000.on_btn_delete_all_notes_click, Part000.deleteAllNotes.
      run_step.
      call (deleteAllNotes_run Part000.card ls us n d
              (t ++ [EConfirm (js "Are you sure you want to delete all your notes?") true])).
      rewrite (updateDeleteAllNotesButtonVisibility_run _ _ _ _ (holds_store [] ls)).
      cbn [fst snd dom]. repeat split; [|exact G].
      apply (shown_iff_after_update _ _ _ _ (holds_store [] ls)).
    + cbn. repeat split; [|exact G].
      eapply delAll_shown_dom; [|exact V]. reflexivity.
Qed.

Lemma session_cons (a : action) (actions : list action) (w : World) :
  eval (react a) w = Ok tt ->
  session (a :: actions) w = session actions (exec (react a) w).
Proof.
  unfold eval, exec. cbn [session]. unfold bind.
  destruct (react a w) as [[[]| |] w']; cbn; congruence.
Qed.

(** X18.  On the page of the second controller, however the user goes on,
    every listener returns normally and the page keeps its two rules: the
    "delete all" button is shown exactly when the storage holds a note, and
    the add button is enabled only over a content that is not blank. *)
Lemma session_keeps_rules (actions : list action) :
  forall w,
    delAll_shown_iff_notes w -> add_enabled_only_on_text w ->
    eval (session actions) w = Ok tt
    /\ delAll_shown_iff_notes (exec (session actions) w)
    /\ add_enabled_only_on_text (exec (session actions) w).
Proof.
  induction actions as [|a actions IH]; intros w V G.
  - repeat split; assumption.
  - destruct (react_keeps_rules a V G) as (E & V' & G').
    unfold eval, exec. rewrite (@session_cons a actions w E). apply IH; assumption.
Qed.

(** A click on the add button over a blank content changes nothing, on a
    page that keeps the rule of the add button. *)
Lemma click_add_on_blank (listener : M unit) (w : World) :
  add_enabled_only_on_text w ->
  trim (txtContent (dom w)) = [] ->
  click_add listener w = (Ok tt, w).
Proof.
  intros G E. unfold click_add, bind, getDom.
  destruct (addBtnDisabled (dom w)) eqn:D; [reflexivity|].
  exfalso. exact (G D E).
Qed.

(* ================================================================== *)
(** ** Where the ids come from *)

Lemma drawn_later (us : nat -> jsstring) (n n' : nat) (notes : list Note) :
  n <= n' ->
  Forall (fun note => exists k, k < n /\ uuid note = us k) notes ->
  Forall (fun note => exists k, k < n' /\ uuid note = us k) notes.
Proof.
  intros L F. eapply Forall_impl; [|exact F].
  intros note (k & Hk & E). exists k. split; [lia|exact E].
Qed.

Lemma stored_ids_dom ls us n n' d d' t t' :
  n <= n' ->
  stored_ids_drawn (mkWorld ls us n d t) ->
  stored_ids_drawn (mkWorld ls us n' d' t').
Proof.
  intros L (notes & H & D & F). exists notes. cbn [localStorage drawn uuids] in *.
  repeat split; [exact H|exact D|]. exact (@drawn_later us n n' notes L F).
Qed.

Lemma stored_ids_filter (p : Note -> bool) ls ls' us n n' d d' t t'
      (notes : list Note) :
  n <= n' ->
  holds ls notes ->
  holds ls' (filter p notes) ->
  stored_ids_drawn (mkWorld ls us n d t) ->
  stored_ids_drawn (mkWorld ls' us n' d' t').
Proof.
  intros L H H' (notes0 & H0 & D & F). cbn [localStorage drawn uuids] in *.
  rewrite (holds_fun H0 H) in D, F. clear H0 notes0.
  exists (filter p notes). cbn [localStorage drawn uuids].
  repeat split; [exact H'| |].
  - clear -D. induction notes as [|a notes IH]; [constructor|].
    inversion D as [|x l Hx D']; subst. cbn [filter].
    destruct (p a); [|auto]. cbn [map]. constructor; [|auto].
    intros I. apply Hx. apply in_map_iff in I. destruct I as (m & E & I).
    apply in_map_iff. exists m. split; [exact E|].
    apply filter_In in I. tauto.
  - apply (@drawn_later us n n' _ L). apply Forall_forall. intros note I.
    apply filter_In in I. destruct I as [I _].
    rewrite Forall_forall in F. auto.
Qed.

(** Each action of the visit keeps the stored ids distinct, when
    [crypto.randomUUID()] never repeats itself. *)
Lemma react_keeps_ids (a : action) (w : World) :
  never_repeats (uuids w) ->
  stored_ids_drawn w ->
  eval (react a) w = Ok tt
  /\ uuids (exec (react a) w) = uuids w
  /\ stored_ids_drawn (exec (react a) w).
Proof.
  destruct w as [ls us n d t]. cbn [uuids]. intros U S.
  pose proof S as (notes & H & D & F). cbn [localStorage drawn uuids] in H, F.
  unfold eval, exec.
  destruct a as [text|text|token|text| |id yes|yes]; cbn [react].
  - cbn. repeat split. eapply stored_ids_dom; [|exact S]; cbn -[trim]; lia.
  - cbn -[trim]. repeat split. eapply stored_ids_dom; [|exact S]; cbn -[trim]; lia.
  - cbn. repeat split. eapply stored_ids_dom; [|exact S]; cbn -[trim]; lia.
  - unfold type_search, on_search_input. run_step.
    rewrite (updateDisplayedNotes_run Part000.card us n _ t H).
    cbn [fst snd uuids]. repeat split.
    eapply stored_ids_dom; [|exact S]; cbn -[trim]; lia.
  - unfold click_add. run_step. destruct (addBtnDisabled d).
    + cbn [ret fst snd uuids]. repeat split. exact S.
    + pose proof (on_btn_add_note_click_run us n d t H) as R.
      cbn zeta in R. rewrite R. cbn [fst snd uuids]. repeat split.
      eexists. cbn [localStorage drawn uuids].
      split; [apply holds_store|]. split.
      * rewrite map_app. cbn [map uuid].
        apply NoDup_app; [exact D|repeat constructor; intros []|].
        intros x I [E|[]]. subst x.
        apply in_map_iff in I. destruct I as (m & E & I).
        rewrite Forall_forall in F. destruct (F m I) as (k & Hk & Ek).
        rewrite Ek in E. apply U in E. lia.
      * apply Forall_app. split.
        -- eapply (@drawn_later us n); [|exact F]. lia.
        -- constructor; [|constructor]. exists n. cbn [uuid].
           split; [lia|reflexivity].
  - destruct yes.
    + unfold Part000.handleDeleteNoteLinkClick, Part000.deleteNote. run_step.
      pose proof (deleteNote_run Part000.card id us n d
                    (t ++ [EConfirm (js "Are you sure you want to delete this note?") true]) H) as R.
      cbn zeta in R. call R.
      rewrite (updateDeleteAllNotesButtonVisibility_run _ _ _ _ (holds_store _ ls)).
      cbn [fst snd uuids]. repeat split.
      eapply (@stored_ids_filter (keeps id)); [|exact H|apply holds_store|exact S].
      lia.
    + cbn. repeat split. eapply stored_ids_dom; [|exact S]; cbn -[trim]; lia.
  - destruct yes.
    + unfold Part000.on_btn_delete_all_notes_click, Part000.deleteAllNotes.
      run_step.
      call (deleteAllNotes_run Part000.card ls us n d
              (t ++ [EConfirm (js "Are you sure you want to delete all your notes?") true])).
      rewrite (updateDeleteAllNotesButtonVisibility_run _ _ _ _ (holds_store [] ls)).
      cbn [fst snd uuids]. repeat split.
      exists []. cbn [localStorage]. repeat split;
        [apply holds_store|constructor|constructor].
    + cbn. repeat split. eapply stored_ids_dom; [|exact S]; cbn -[trim]; lia.
Qed.

(** X19.  On the page of the second controller, however the user goes on,
    no two stored notes share a [uuid], when [crypto.randomUUID()] never
    repeats itself. *)
Lemma session_keeps_ids (actions : list action) :
  forall w,
    never_repeats (uuids w) ->
    stored_ids_drawn w ->
    eval (session actions) w = Ok tt
    /\ stored_ids_drawn (exec (session actions) w).
Proof.
  induction actions as [|a actions IH]; intros w U S.
  - split; [reflexivity|exact S].
  - destruct (react_keeps_ids a U S) as (E & Eu & S').
    unfold eval, exec. rewrite (@session_cons a actions w E).
    apply IH; [rewrite Eu; exact U|exact S'].
Qed.

Lemma never_stored_ids (w : World) : never_stored w -> stored_ids_drawn w.
Proof.
  intros H. exists []. repeat split; [apply holds_absent, H|constructor|constructor].
Qed.

(* ================================================================== *)
(** ** The properties on the sample pages *)

Lemma page_with_groceries_holds :
  holds (localStorage page_with_groceries) [groceries].
Proof.
  exists [note_value groceries]. split; [vm_compute; reflexivity|].
  constructor; [|constructor].
  eexists. split; [reflexivity|]. intros target. reflexivity.
Defined.

Lemma sample_uuids_differ :
  NoDup (map uuid (appended [Append groceries; Append chores;
                             RemoveById (js "note-")])).
Proof.
  cbn [appended map]. constructor; [|constructor; [|constructor]].
  - intros [E|[]]. vm_compute in E. discriminate E.
  - intros [].
Defined.

Lemma listAll_after_operations_witness :
  never_stored fresh_page
  /\ eval (run AppJs.card [Append groceries; Append chores;
                           RemoveById (js "note-")] ;; getNotes) fresh_page
     = Ok [chores]
  /\ NoDup (map uuid [chores]).
Proof.
  assert (never_stored fresh_page) as H by reflexivity.
  destruct (@listAll_after_operations AppJs.card
              [Append groceries; Append chores; RemoveById (js "note-")]
              fresh_page H) as [E D].
  split; [exact H|]. split; [exact E|]. exact (D sample_uuids_differ).
Defined.

(** C1, as stated, fails where the same note is appended twice: the store
    keeps both, and they share their [uuid]. *)
Lemma listAll_keeps_duplicate_ids :
  never_stored fresh_page
  /\ eval (run AppJs.card [Append groceries; Append groceries] ;; getNotes)
          fresh_page
     = Ok [groceries; groceries]
  /\ survivors [Append groceries; Append groceries] = [groceries; groceries]
  /\ ~ NoDup (map uuid [groceries; groceries]).
Proof.
  split; [reflexivity|]. split; [vm_compute; reflexivity|].
  split; [reflexivity|].
  intros D. inversion D as [|x l Hx D']. apply Hx. left. reflexivity.
Qed.

Lemma listAll_absent_is_empty_witness :
  never_stored fresh_page /\ eval getNotes fresh_page = Ok [].
Proof.
  assert (never_stored fresh_page) as H by reflexivity.
  split; [exact H|]. exact (@listAll_absent_is_empty fresh_page H).
Defined.

Lemma listAll_empty_string_is_empty_witness :
  lookup NOTES_LOCAL_STORAGE_KEY (localStorage page_with_empty_entry) = Some []
  /\ eval getNotes page_with_empty_entry = Ok [].
Proof.
  assert (lookup NOTES_LOCAL_STORAGE_KEY (localStorage page_with_empty_entry)
          = Some []) as H by reflexivity.
  split; [exact H|].
  exact (@listAll_empty_string_is_empty page_with_empty_entry H).
Defined.

Lemma removeById_filters_witness :
  holds (localStorage page_with_groceries) [groceries]
  /\ eval (deleteNote AppJs.card (js "note-") ;; getNotes) page_with_groceries
     = Ok []
  /\ eval (deleteNote AppJs.card (js "note-1") ;; getNotes) page_with_groceries
     = Ok [groceries].
Proof.
  split; [exact page_with_groceries_holds|]. split.
  - exact (proj1 (proj2 (@removeById_filters AppJs.card (js "note-")
                           [groceries] page_with_groceries
                           page_with_groceries_holds))).
  - exact (proj1 (proj2 (@removeById_filters AppJs.card (js "note-1")
                           [groceries] page_with_groceries
                           page_with_groceries_holds))).
Defined.

Lemma render_empty_query_and_placeholder_witness :
  holds (localStorage page_with_groceries) [groceries]
  /\ notesHtml (dom (exec (updateDisplayedNotes AppJs.card)
                          page_with_groceries))
     = AppJs.card groceries.
Proof.
  split; [exact page_with_groceries_holds|].
  destruct (@render_empty_query_and_placeholder AppJs.card [groceries]
              page_with_groceries page_with_groceries_holds)
    as (_ & _ & S & _).
  apply S; [reflexivity|discriminate].
Defined.

Lemma delete_all_button_follows_store_witness :
  holds (localStorage page_with_groceries) [groceries]
  /\ delAllHidden
       (dom (exec (Part000.on_btn_delete_all_notes_click true)
                  page_with_groceries)) = true
  /\ delAll_shown_iff_notes (exec Part000.on_load page_with_groceries).
Proof.
  split; [exact page_with_groceries_holds|].
  destruct (@delete_all_button_follows_store [groceries] page_with_groceries
              page_with_groceries_holds)
    as ((_ & L) & _ & _ & (_ & _ & C)).
  split; [exact C|exact L].
Defined.

Lemma destructive_actions_ask_first_witness :
  holds (localStorage page_with_groceries) [groceries]
  /\ trace (exec (Part000.handleDeleteNoteLinkClick (js "note-") true)
                 page_with_groceries)
     = [EConfirm (js "Are you sure you want to delete this note?") true;
        ESetItem NOTES_LOCAL_STORAGE_KEY (js "[]")].
Proof.
  split; [exact page_with_groceries_holds|].
  destruct (@destructive_actions_ask_first [groceries] page_with_groceries
              page_with_groceries_holds) as (S & _).
  exact (proj1 (S (js "note-"))).
Defined.

(** C6, as stated, fails twice: a declined single-note delete of the second
    controller shows no message, and the card button of [app.js] deletes
    without a dialog. *)
Lemma declined_delete_is_silent_and_card_button_does_not_ask :
  (trace (exec (Part000.handleDeleteNoteLinkClick (js "note-") false)
               page_with_groceries)
   = [EConfirm (js "Are you sure you want to delete this note?") false]
   /\ existsb is_alert
        (trace (exec (Part000.handleDeleteNoteLinkClick (js "note-") false)
                     page_with_groceries)) = false)
  /\ (eval getNotes page_with_groceries = Ok [groceries]
      /\ eval (AppJs.on_card_button_click (js "note-") ;; getNotes)
              page_with_groceries = Ok []
      /\ existsb is_dialog
           (trace (exec (AppJs.on_card_button_click (js "note-"))
                        page_with_groceries)) = false).
Proof. vm_compute. repeat split. Qed.

Lemma add_button_gate_and_listener_witness :
  holds (localStorage page_with_groceries) [groceries]
  /\ eval (AppJs.on_addBtn_click ;; getNotes) page_with_groceries
     = Ok [groceries; mkNote (js "note-1") (js "Untitled") [] (js "white")]
  /\ (type_content (js "  ") ;; click_add AppJs.on_addBtn_click)
       page_with_groceries
     = type_content (js "  ") page_with_groceries.
Proof.
  split; [exact page_with_groceries_holds|].
  destruct (add_button_gate_and_listener page_with_groceries)
    as (_ & G & S & _).
  split.
  - exact (proj1 (proj2 (S [groceries] page_with_groceries_holds))).
  - apply G. reflexivity.
Defined.

(** C4, as stated, fails where the add button is enabled over an empty
    content: the listener runs and stores a note. *)
Lemma add_listener_stores_blank_content :
  trim (txtContent (dom page_with_add_enabled)) = []
  /\ eval getNotes page_with_add_enabled = Ok []
  /\ eval (click_add AppJs.on_addBtn_click ;; getNotes) page_with_add_enabled
     = Ok [mkNote (js "note-") (js "Untitled") [] (js "white")]
  /\ eval (click_add Part000.on_btn_add_note_click ;; getNotes)
          page_with_add_enabled
     = Ok [mkNote (js "note-") (js "Untitled") [] (js "white")].
Proof. vm_compute. repeat split. Qed.

(* ================================================================== *)
(** ** What a run leaves alone *)

Section Respects.

Variable R : World -> World -> Prop.
Hypothesis R_refl : forall w, R w w.
Hypothesis R_trans : forall w1 w2 w3, R w1 w2 -> R w2 w3 -> R w1 w3.









End Respects.























(* ================================================================== *)
(** ** A storage that cannot be read *)

(** X1.  When the stored text is not JSON, [getNotes] throws the
    [SyntaxError] of [JSON.parse] and changes nothing. *)
Theorem getNotes_throws_on_corrupt_text (w : World) :
  parse (stored_text (localStorage w)) = None ->
  getNotes w = (Throw SyntaxError, w).
Proof.
  destruct w as [ls us n d t]. cbn [localStorage].
  apply getNotes_syntax_error.
Qed.

(** X2.  When the stored text is JSON but not an array, [objs.map] is not a
    function: [getNotes] throws a [TypeError] and changes nothing. *)
Theorem getNotes_throws_on_non_array (w : World) (v : value) :
  parse (stored_text (localStorage w)) = Some v ->
  (forall elems, v <> VArr elems) ->
  getNotes w = (Throw TypeError, w).
Proof.
  destruct w as [ls us n d t]. cbn [localStorage]. intros P N.
  unfold getNotes, getItem, bind at 1. cbn [localStorage].
  fold (stored_text ls). unfold bind, JSON_parse. rewrite P. unfold ret.
  destruct v; try reflexivity. exfalso. exact (N elems eq_refl).
Qed.

(** X3.  On a stored text that is not JSON every function that reads the
    store throws before it writes or renders: [saveNewNote], [deleteNote],
    [updateDisplayedNotes] and the second controller's load leave the world
    as it was, [app.js] has only logged its welcome, and a confirmed
    single-note delete has only asked. *)
Theorem readers_throw_before_writing (card : Note -> jsstring) (w : World) :
  parse (stored_text (localStorage w)) = None ->
  (forall note, saveNewNote note w = (Throw SyntaxError, w))
  /\ (forall id, deleteNote card id w = (Throw SyntaxError, w))
  /\ updateDisplayedNotes card w = (Throw SyntaxError, w)
  /\ Part000.on_load w = (Throw SyntaxError, w)
  /\ AppJs.on_load w
     = (Throw SyntaxError,
        with_trace
          (trace w ++ [ELog (js "Welcome to notes app. This is app.js")]) w)
  /\ (forall id,
        Part000.handleDeleteNoteLinkClick id true w
        = (Throw SyntaxError,
           with_trace
             (trace w
              ++ [EConfirm (js "Are you sure you want to delete this note?")
                           true]) w)).
Proof.
  destruct w as [ls us n d t]. cbn [localStorage trace]. intros P.
  pose proof (fun us n d t => @getNotes_syntax_error ls us n d t P) as G.
  repeat split; intros;
    unfold saveNewNote, deleteNote, Part000.on_load, AppJs.on_load,
      Part000.handleDeleteNoteLinkClick, Part000.deleteNote, deleteNote,
      Part000.updateDisplayedNotes, AppJs.updateDisplayedNotes,
      updateDisplayedNotes, confirm, console_log, emit, getDom, ret;
    unfold bind; world; rewrite G; reflexivity.
Qed.

Lemma on_btn_delete_all_notes_click_run ls us n d t :
  Part000.on_btn_delete_all_notes_click true (mkWorld ls us n d t)
  = (Ok tt,
     mkWorld (store NOTES_LOCAL_STORAGE_KEY (JSON_stringify []) ls) us n
             (with_delAllHidden true (with_notesHtml placeholder d))
             (t ++ [EConfirm (js "Are you sure you want to delete all your notes?") true;
                    ESetItem NOTES_LOCAL_STORAGE_KEY (JSON_stringify [])])).
Proof.
  unfold Part000.on_btn_delete_all_notes_click, Part000.deleteAllNotes.
  run_step.
  call (deleteAllNotes_run Part000.card ls us n d
          (t ++ [EConfirm (js "Are you sure you want to delete all your notes?") true])).
  rewrite (updateDeleteAllNotesButtonVisibility_run _ _ _ _ (holds_store [] ls)).
  cbn [List.length Nat.eqb]. rewrite Nat.add_0_r, <- app_assoc. reflexivity.
Qed.

Lemma on_delAllBtn_click_run ls us n d t :
  AppJs.on_delAllBtn_click (Some (js "delete")) (mkWorld ls us n d t)
  = (Ok tt,
     mkWorld (store NOTES_LOCAL_STORAGE_KEY (JSON_stringify []) ls) us n
             (with_notesHtml placeholder d)
             (t ++ [EPrompt AppJs.prompt_text (Some (js "delete"));
                    ESetItem NOTES_LOCAL_STORAGE_KEY (JSON_stringify [])])).
Proof.
  unfold AppJs.on_delAllBtn_click, AppJs.deleteAllNotes.
  run_step. rewrite str_eqb_refl.
  rewrite (deleteAllNotes_run AppJs.card ls us n d
             (t ++ [EPrompt AppJs.prompt_text (Some (js "delete"))])).
  rewrite <- app_assoc. reflexivity.
Qed.

(** X4.  Deleting all notes works on any storage, readable or not: it
    returns normally, the storage then holds no note, the container shows
    the placeholder, and the second controller hides its "delete all"
    button. *)
Theorem deleteAllNotes_resets_any_store (card : Note -> jsstring) (w : World) :
  eval (deleteAllNotes card ;; getNotes) w = Ok []
  /\ notesHtml (dom (exec (deleteAllNotes card) w)) = placeholder
  /\ eval (Part000.on_btn_delete_all_notes_click true ;; getNotes) w = Ok []
  /\ delAllHidden
       (dom (exec (Part000.on_btn_delete_all_notes_click true) w)) = true
  /\ eval (AppJs.on_delAllBtn_click (Some (js "delete")) ;; getNotes) w
     = Ok [].
Proof.
  destruct w as [ls us n d t]. unfold eval, exec.
  split; [|split; [|split; [|split]]].
  - call (deleteAllNotes_run card ls us n d t).
    rewrite (getNotes_holds _ _ _ _ (holds_store [] ls)). reflexivity.
  - rewrite (deleteAllNotes_run card ls us n d t). reflexivity.
  - call (on_btn_delete_all_notes_click_run ls us n d t).
    rewrite (getNotes_holds _ _ _ _ (holds_store [] ls)). reflexivity.
  - rewrite (on_btn_delete_all_notes_click_run ls us n d t). reflexivity.
  - call (on_delAllBtn_click_run ls us n d t).
    rewrite (getNotes_holds _ _ _ _ (holds_store [] ls)). reflexivity.
Qed.

(* ================================================================== *)
(** ** Notes read from objects that lack a property *)

Lemma has_key_cons (key k : jsstring) (v : value)
      (props : list (jsstring * value)) :
  has_key key ((k, v) :: props) = false ->
  str_eqb k key = false /\ has_key key props = false.
Proof. unfold has_key. cbn [existsb fst]. apply orb_false_iff. Qed.

Lemma assign_keeps_absent (props : list (jsstring * value)) :
  forall target note,
    assign target props = Some note ->
    (has_key (js "uuid") props = false -> uuid note = uuid target)
    /\ (has_key (js "title") props = false -> title note = title target)
    /\ (has_key (js "content") props = false -> content note = content target)
    /\ (has_key (js "color") props = false -> color note = color target).
Proof.
  induction props as [|[k v] props IH]; intros target note E.
  - cbn in E. injection E as <-. repeat split.
  - cbn [assign] in E. destruct v; try discriminate E.
    destruct (str_eqb k (js "uuid")) eqn:Ku;
      [|destruct (str_eqb k (js "title")) eqn:Kt;
        [|destruct (str_eqb k (js "content")) eqn:Kc;
          [|destruct (str_eqb k (js "color")) eqn:Kl; [|discriminate E]]]];
      destruct (IH _ _ E) as (I1 & I2 & I3 & I4); cbn [uuid title content color] in *;
      repeat split; intros H; apply has_key_cons in H; destruct H as [H1 H2];
      auto; congruence.
Qed.

(** X8.  [Note.fromObj] calls [new Note()] first, so a property the object
    lacks keeps the constructor's value: the [uuid] just drawn from
    [crypto.randomUUID()], the empty title, the empty content, the colour
    [white]. *)
Theorem fromObj_keeps_constructor_defaults
        (obj : value) (props : list (jsstring * value)) (note : Note)
        (w : World) :
  own_properties obj = Some props ->
  eval (fromObj obj) w = Ok note ->
  (has_key (js "uuid") props = false -> uuid note = uuids w (drawn w))
  /\ (has_key (js "title") props = false -> title note = [])
  /\ (has_key (js "content") props = false -> content note = [])
  /\ (has_key (js "color") props = false -> color note = js "white")
  /\ drawn (exec (fromObj obj) w) = S (drawn w).
Proof.
  destruct w as [ls us n d t]. intros P E.
  unfold eval, exec, fromObj, new_Note, randomUUID, bind, ret in *.
  cbn [uuids drawn fst snd] in *. unfold with_drawn in *.
  cbn [localStorage uuids drawn dom trace] in *.
  rewrite P in *.
  destruct (assign (mkNote (us n) (js "") (js "") (js "white")) props)
    as [note'|] eqn:A; cbn [fst snd drawn] in *; [|discriminate E].
  injection E as <-.
  destruct (assign_keeps_absent _ _ A) as (I1 & I2 & I3 & I4).
  cbn [uuid title content color] in *. repeat split; assumption.
Qed.

(* ================================================================== *)
(** ** What the search finds *)

Lemma startsWith_iff (s t : jsstring) :
  startsWith s t = true <-> exists after, s = t ++ after.
Proof.
  revert s. induction t as [|d t IH]; intros s; cbn [startsWith].
  - split; [intros _; exists s; reflexivity|].
    intros _. destruct s; reflexivity.
  - destruct s as [|c s]; cbn [startsWith].
    + split; [discriminate|]. intros (after & E). discriminate E.
    + rewrite andb_true_iff, N.eqb_eq, IH. split.
      * intros (-> & after & ->). exists after. reflexivity.
      * intros (after & E). injection E as -> ->. split; [reflexivity|].
        exists after. reflexivity.
Qed.

Lemma includes_iff (s t : jsstring) :
  includes s t = true <-> occurs_in t s.
Proof.
  unfold occurs_in. induction s as [|c s IH]; cbn [includes].
  - rewrite orb_false_r, startsWith_iff. split.
    + intros (after & E). exists [], after. exact E.
    + intros (before & after & E).
      destruct before; [|discriminate E]. exists after. exact E.
  - rewrite orb_true_iff, startsWith_iff, IH. split.
    + intros [(after & E)|(before & after & E)].
      * exists [], after. exact E.
      * exists (c :: before), after. rewrite E. reflexivity.
    + intros (before & after & E). destruct before as [|b before].
      * left. exists after. exact E.
      * right. injection E as -> E. exists before, after. exact E.
Qed.

(** X13.  The filter of [updateDisplayedNotes] keeps a note exactly when the
    lower-cased search text occurs, unit for unit, in the note's title or
    in its content as they are stored. *)
Theorem matches_iff_query_occurs (searchText : jsstring) (note : Note) :
  matches searchText note = true
  <-> occurs_in (toLowerCase searchText) (title note)
      \/ occurs_in (toLowerCase searchText) (content note).
Proof.
  unfold matches. rewrite orb_true_iff, !includes_iff. reflexivity.
Qed.

Lemma occurs_here (t rest : jsstring) : occurs_in t (t ++ rest).
Proof. exists [], rest. reflexivity. Qed.

Lemma occurs_later (t skipped rest : jsstring) :
  occurs_in t rest -> occurs_in t (skipped ++ rest).
Proof.
  intros (before & after & ->). exists (skipped ++ before), after.
  rewrite <- app_assoc. reflexivity.
Qed.

Ltac find_occurrence :=
  repeat first [ apply occurs_here | apply occurs_later ].

(** X14.  The card of a note carries its colour, its title, its content and
    its [uuid], each copied as it is stored, in both scripts. *)
Theorem card_carries_the_note (note : Note) :
  (occurs_in (color note) (AppJs.card note)
   /\ occurs_in (title note) (AppJs.card note)
   /\ occurs_in (content note) (AppJs.card note)
   /\ occurs_in (uuid note) (AppJs.card note))
  /\ (occurs_in (color note) (Part000.card note)
      /\ occurs_in (title note) (Part000.card note)
      /\ occurs_in (content note) (Part000.card note)
      /\ occurs_in (uuid note) (Part000.card note)).
Proof.
  unfold AppJs.card, Part000.card. repeat split; find_occurrence.
Qed.

(* ================================================================== *)
(** ** The content input *)

Lemma trimStart_nil_iff (s : jsstring) :
  trimStart s = [] <-> forallb is_space s = true.
Proof.
  induction s as [|c s IH]; cbn [trimStart forallb]; [tauto|].
  destruct (is_space c); cbn [andb]; [exact IH|].
  split; discriminate.
Qed.

Lemma trimStart_head (s : jsstring) :
  match trimStart s with
  | [] => True
  | c :: _ => is_space c = false
  end.
Proof.
  induction s as [|c s IH]; cbn [trimStart]; [exact I|].
  destruct (is_space c) eqn:E; [exact IH|exact E].
Qed.

Lemma trim_nil_iff (s : jsstring) :
  trim s = [] <-> forallb is_space s = true.
Proof.
  rewrite <- trimStart_nil_iff. unfold trim, trimEnd.
  pose proof (trimStart_head s) as H.
  destruct (trimStart s) as [|c r] eqn:E; [cbn; tauto|].
  split; [|discriminate]. intros T.
  apply (f_equal (@rev N)) in T. rewrite rev_involutive in T. cbn [rev] in T.
  apply trimStart_nil_iff in T. rewrite forallb_forall in T.
  specialize (T c). rewrite H in T.
  assert (In c (rev (c :: r))) as I by (apply in_rev; rewrite rev_involutive; left; reflexivity).
  specialize (T I). discriminate T.
Qed.

(** X17.  After the user edits the content, the add button is disabled
    exactly when every code unit of the content is white space or a line
    terminator, the empty content included; the storage is not touched. *)
Theorem content_input_sets_the_add_button (text : jsstring) (w : World) :
  (addBtnDisabled (dom (exec (type_content text) w)) = forallb is_space text)
  /\ txtContent (dom (exec (type_content text) w)) = text
  /\ localStorage (exec (type_content text) w) = localStorage w
  /\ eval (type_content text) w = Ok tt.
Proof.
  destruct w as [ls us n d t]. unfold exec, eval. cbn -[trim].
  repeat split.
  destruct (forallb is_space text) eqn:E.
  - apply trim_nil_iff in E. rewrite E. reflexivity.
  - destruct (trim text) eqn:T; [|reflexivity].
    apply trim_nil_iff in T. congruence.
Qed.

(* ================================================================== *)
(** ** How the operations of the store compose *)

Section Composition.

Variable card : Note -> jsstring.

(** X9.  On a storage that holds [notes], [saveNewNote note] returns
    normally and the storage then holds [notes] followed by [note]: the
    notes already there keep their place and the new one is last. *)
Theorem saveNewNote_appends (note : Note) (notes : list Note) (w : World) :
  holds (localStorage w) notes ->
  eval (saveNewNote note) w = Ok tt
  /\ eval (saveNewNote note ;; getNotes) w = Ok (notes ++ [note])
  /\ dom (exec (saveNewNote note) w) = dom w.
Proof.
  destruct w as [ls us n d t]. cbn [localStorage]. intros H.
  pose proof (saveNewNote_run note us n d t H) as R.
  unfold eval, exec. repeat split.
  - rewrite R. reflexivity.
  - call R. rewrite (getNotes_holds _ _ _ _ (holds_store _ ls)). reflexivity.
  - rewrite R. reflexivity.
Qed.

(** X10.  Appending a note and then deleting by its [uuid] leaves the notes
    that were stored before under other ids; when no stored note shared
    the [uuid], the collection is back to what it was. *)
Theorem saveNewNote_then_deleteNote (note : Note) (notes : list Note)
        (w : World) :
  holds (localStorage w) notes ->
  eval (saveNewNote note ;; deleteNote card (uuid note) ;; getNotes) w
  = Ok (filter (keeps (uuid note)) notes)
  /\ (Forall (fun stored => uuid stored <> uuid note) notes ->
      eval (saveNewNote note ;; deleteNote card (uuid note) ;; getNotes) w
      = Ok notes).
Proof.
  destruct w as [ls us n d t]. cbn [localStorage]. intros H.
  assert (eval (saveNewNote note ;; deleteNote card (uuid note) ;; getNotes)
               (mkWorld ls us n d t)
          = Ok (filter (keeps (uuid note)) notes)) as E.
  { unfold eval. call (saveNewNote_run note us n d t H).
    pose proof (deleteNote_run card (uuid note) us
                  (n + List.length notes) d
                  (t ++ [ESetItem NOTES_LOCAL_STORAGE_KEY
                                  (JSON_stringify (notes ++ [note]))])
                  (holds_store (notes ++ [note]) ls)) as R.
    cbn zeta in R. call R.
    rewrite (getNotes_holds _ _ _ _ (holds_store _ _)).
    rewrite filter_app. cbn [filter]. unfold keeps at 2.
    rewrite str_eqb_refl. cbn [negb]. rewrite app_nil_r. reflexivity. }
  split; [exact E|]. intros F. rewrite E, (keeps_all F). reflexivity.
Qed.




(** X15.  After [deleteNote] and after the add listener the container shows
    the new collection under the search text of the page: the cards of the
    notes that match it, or the placeholder; the add listener leaves the
    title, the colour and the search text on the page. *)
Theorem mutations_render_under_the_search_text (notes : list Note)
        (w : World) :
  holds (localStorage w) notes ->
  (forall id,
      notesHtml (dom (exec (deleteNote card id) w))
      = display card (searchTxt (dom w)) (filter (keeps id) notes))
  /\ (let note :=
        mkNote (uuids w (drawn w))
               (or_else (Some (trim (inpTitle (dom w)))) (js "Untitled"))
               (txtContent (dom w)) (selectorColor (dom w)) in
      notesHtml (dom (exec (add_note_from_inputs card) w))
      = display card (searchTxt (dom w)) (notes ++ [note]))
  /\ inpTitle (dom (exec (add_note_from_inputs card) w)) = inpTitle (dom w)
  /\ selectorColor (dom (exec (add_note_from_inputs card) w))
     = selectorColor (dom w)
  /\ searchTxt (dom (exec (add_note_from_inputs card) w)) = searchTxt (dom w).
Proof.
  destruct w as [ls us n d t]. cbn [localStorage dom uuids drawn]. intros H.
  pose proof (add_note_from_inputs_run card us n d t H) as R. cbn zeta in R.
  unfold exec. rewrite R. cbn [snd dom]. repeat split.
  intros id. pose proof (deleteNote_run card id us n d t H) as R'.
  cbn zeta in R'. rewrite R'. reflexivity.
Qed.

End Composition.

Lemma note_values_injective (notes1 notes2 : list Note) :
  map note_value notes1 = map note_value notes2 -> notes1 = notes2.
Proof.
  revert notes2. induction notes1 as [|a l IH]; intros [|b l'] M;
    try discriminate M; [reflexivity|].
  destruct a as [u1 t1 c1 l1], b as [u2 t2 c2 l2].
  cbn [map note_value uuid title content color] in M.
  injection M as Eu Et Ec El M. subst. f_equal. apply IH, M.
Qed.

(** X12.  Two collections with the same stored text are the same collection:
    [JSON.stringify] loses nothing of a list of notes. *)
Theorem JSON_stringify_injective (notes1 notes2 : list Note) :
  JSON_stringify notes1 = JSON_stringify notes2 -> notes1 = notes2.
Proof.
  intros E.
  pose proof (JsonFacts.parse_stringify notes1) as P1.
  pose proof (JsonFacts.parse_stringify notes2) as P2.
  rewrite E, P2 in P1. injection P1 as M.
  symmetry. apply note_values_injective, M.
Qed.

(* ================================================================== *)
(** ** Whole visits: no blank note, no shared id *)

Lemma text_same_store ls us us' n n' d d' t t' :
  notes_have_text (mkWorld ls us n d t) ->
  notes_have_text (mkWorld ls us' n' d' t').
Proof. intros (notes & H & F). exists notes. split; assumption. Qed.

Lemma text_filter (p : Note -> bool) (notes : list Note)
      ls ls' us us' n n' d d' t t' :
  holds ls notes ->
  holds ls' (filter p notes) ->
  notes_have_text (mkWorld ls us n d t) ->
  notes_have_text (mkWorld ls' us' n' d' t').
Proof.
  intros H H' (notes0 & H0 & F). cbn [localStorage] in *.
  rewrite (holds_fun H0 H) in F. exists (filter p notes).
  split; [exact H'|]. apply Forall_forall. intros note I.
  apply filter_In in I. rewrite Forall_forall in F. apply F, I.
Qed.

Lemma text_append (note : Note) (notes : list Note)
      ls ls' us us' n n' d d' t t' :
  holds ls notes ->
  holds ls' (notes ++ [note]) ->
  trim (content note) <> [] ->
  notes_have_text (mkWorld ls us n d t) ->
  notes_have_text (mkWorld ls' us' n' d' t').
Proof.
  intros H H' T (notes0 & H0 & F). cbn [localStorage] in *.
  rewrite (holds_fun H0 H) in F. exists (notes ++ [note]).
  split; [exact H'|]. apply Forall_app. split; [exact F|].
  constructor; [exact T|constructor].
Qed.

Lemma ids_append (note : Note) (notes : list Note)
      ls ls' us n n' d d' t t' :
  never_repeats us ->
  holds ls notes ->
  holds ls' (notes ++ [note]) ->
  uuid note = us n -> n < n' ->
  stored_ids_drawn (mkWorld ls us n d t) ->
  stored_ids_drawn (mkWorld ls' us n' d' t').
Proof.
  intros U H H' E L (notes0 & H0 & D & F). cbn [localStorage drawn uuids] in *.
  rewrite (holds_fun H0 H) in D, F. exists (notes ++ [note]).
  cbn [localStorage drawn uuids]. split; [exact H'|]. split.
  - rewrite map_app. cbn [map].
    apply NoDup_app; [exact D|repeat constructor; intros []|].
    intros x I [Ex|[]]. subst x.
    apply in_map_iff in I. destruct I as (m & Em & I).
    rewrite Forall_forall in F. destruct (F m I) as (k & Hk & Ek).
    rewrite Ek, E in Em. apply U in Em. lia.
  - apply Forall_app. split.
    + eapply (@drawn_later us n); [|exact F]. lia.
    + constructor; [|constructor]. exists n. split; [exact L|exact E].
Qed.

Lemma ids_cleared ls us n d t :
  stored_ids_drawn
    (mkWorld (store NOTES_LOCAL_STORAGE_KEY (JSON_stringify []) ls) us n d t).
Proof.
  exists []. cbn [localStorage]. repeat split;
    [apply holds_store|constructor|constructor].
Qed.

Lemma text_cleared ls us n d t :
  notes_have_text
    (mkWorld (store NOTES_LOCAL_STORAGE_KEY (JSON_stringify []) ls) us n d t).
Proof. exists []. split; [apply holds_store|constructor]. Qed.

Lemma on_delAllBtn_click_refused (typed : option jsstring) ls us n d t :
  typed <> Some (js "delete") ->
  AppJs.on_delAllBtn_click typed (mkWorld ls us n d t)
  = (Ok tt,
     mkWorld ls us n d
             (t ++ [EPrompt AppJs.prompt_text typed;
                    EAlert AppJs.refusal_text])).
Proof.
  intros Hne. unfold AppJs.on_delAllBtn_click.
  assert (match typed with
          | Some text => str_eqb text (js "delete")
          | None => false
          end = false) as E.
  { destruct typed as [text|]; [|reflexivity]. apply str_eqb_neq. congruence. }
  unfold prompt, alert, emit, bind, ret. cbn [fst snd].
  rewrite E. world. rewrite <- app_assoc. reflexivity.
Qed.

Lemma typed_delete_or_not (typed : option jsstring) :
  typed = Some (js "delete") \/ typed <> Some (js "delete").
Proof.
  destruct typed as [text|]; [|right; discriminate].
  destruct (str_eqb text (js "delete")) eqn:E.
  - left. apply str_eqb_eq in E. congruence.
  - right. apply str_eqb_neq in E. congruence.
Qed.

(** Each action on the page of [app.js] returns normally and keeps the
    three rules: the add button is enabled only over a content that is not
    blank, no stored note has a blank content, no two stored notes share a
    [uuid]. *)
Lemma app_react_keeps_rules (a : app_action) (w : World) :
  never_repeats (uuids w) ->
  add_enabled_only_on_text w -> notes_have_text w -> stored_ids_drawn w ->
  eval (app_react a) w = Ok tt
  /\ uuids (exec (app_react a) w) = uuids w
  /\ add_enabled_only_on_text (exec (app_react a) w)
  /\ notes_have_text (exec (app_react a) w)
  /\ stored_ids_drawn (exec (app_react a) w).
Proof.
  destruct w as [ls us n d t]. cbn [uuids]. intros U G T S.
  pose proof T as (notes & H & _). cbn [localStorage] in H.
  unfold add_enabled_only_on_text in *. cbn [dom] in G.
  unfold eval, exec.
  destruct a as [text|text|token|text| |id|typed]; cbn [app_react].
  - cbn. repeat split; [exact G|exact (text_same_store _ _ _ _ T)|].
    eapply stored_ids_dom; [|exact S]; cbn; lia.
  - cbn -[trim]. repeat split.
    + intros E. apply Nat.eqb_neq in E.
      destruct (trim text); [contradiction|discriminate].
    + exact (text_same_store _ _ _ _ T).
    + eapply stored_ids_dom; [|exact S]; cbn -[trim]; lia.
  - cbn. repeat split; [exact G|exact (text_same_store _ _ _ _ T)|].
    eapply stored_ids_dom; [|exact S]; cbn; lia.
  - unfold type_search, on_search_input. run_step.
    rewrite (updateDisplayedNotes_run AppJs.card us n _ t H).
    cbn [fst snd uuids dom with_notesHtml addBtnDisabled txtContent
         with_searchTxt].
    repeat split; [exact G|exact (text_same_store _ _ _ _ T)|].
    eapply stored_ids_dom; [|exact S]; lia.
  - unfold click_add. run_step. destruct (addBtnDisabled d) eqn:D.
    + cbn [ret fst snd uuids dom]. repeat split; [|exact T|exact S].
      rewrite D. discriminate.
    + unfold AppJs.on_addBtn_click.
      pose proof (add_note_from_inputs_run AppJs.card us n d t H) as R.
      cbn zeta in R. rewrite R. cbn [fst snd uuids dom]. repeat split.
      * cbn. discriminate.
      * eapply (@text_append _ notes ls); [exact H|apply holds_store| |exact T].
        cbn [content]. exact (G eq_refl).
      * eapply (@ids_append _ notes ls); [exact U|exact H|apply holds_store
                                        | reflexivity | |exact S].
        lia.
  - unfold AppJs.on_card_button_click, AppJs.deleteNote.
    pose proof (deleteNote_run AppJs.card id us n d t H) as R.
    cbn zeta in R. rewrite R. cbn [fst snd uuids dom]. repeat split.
    + exact G.
    + eapply (@text_filter (keeps id) notes ls);
        [exact H|apply holds_store|exact T].
    + eapply (@stored_ids_filter (keeps id)); [|exact H|apply holds_store|exact S].
      lia.
  - destruct (typed_delete_or_not typed) as [->|Hne].
    + rewrite (on_delAllBtn_click_run ls us n d t).
      cbn [fst snd uuids dom]. repeat split;
        [exact G|apply text_cleared|apply ids_cleared].
    + rewrite (on_delAllBtn_click_refused _ _ _ _ _ Hne).
      cbn [fst snd uuids dom]. repeat split;
        [exact G|exact (text_same_store _ _ _ _ T)|].
      eapply stored_ids_dom; [|exact S]; lia.
Qed.

Lemma app_session_cons (a : app_action) (actions : list app_action)
      (w : World) :
  eval (app_react a) w = Ok tt ->
  app_session (a :: actions) w = app_session actions (exec (app_react a) w).
Proof.
  unfold eval, exec. cbn [app_session]. unfold bind.
  destruct (app_react a w) as [[[]| |] w']; cbn; congruence.
Qed.

(** X21.  On the page of [app.js], from a page whose add button is enabled
    only over a content that is not blank: however the user goes on, every
    listener returns normally, no note with a blank content is ever stored,
    and no two stored notes share a [uuid] as long as
    [crypto.randomUUID()] does not repeat itself. *)
Theorem app_session_keeps_rules (actions : list app_action) :
  forall w,
    never_repeats (uuids w) ->
    add_enabled_only_on_text w -> notes_have_text w -> stored_ids_drawn w ->
    eval (app_session actions) w = Ok tt
    /\ add_enabled_only_on_text (exec (app_session actions) w)
    /\ notes_have_text (exec (app_session actions) w)
    /\ stored_ids_drawn (exec (app_session actions) w).
Proof.
  induction actions as [|a actions IH]; intros w U G T S.
  - repeat split; assumption.
  - destruct (app_react_keeps_rules a U G T S) as (E & Eu & G' & T' & S').
    unfold eval, exec. rewrite (@app_session_cons a actions w E).
    apply IH; [rewrite Eu; exact U|exact G'|exact T'|exact S'].
Qed.

(** Each action on the page of the second controller keeps the notes'
    contents from being blank. *)
Lemma react_keeps_text (a : action) (w : World) :
  add_enabled_only_on_text w -> notes_have_text w ->
  eval (react a) w = Ok tt
  /\ add_enabled_only_on_text (exec (react a) w)
  /\ notes_have_text (exec (react a) w).
Proof.
  destruct w as [ls us n d t]. intros G T.
  pose proof T as (notes & H & _). cbn [localStorage] in H.
  unfold add_enabled_only_on_text in *. cbn [dom] in G.
  unfold eval, exec.
  destruct a as [text|text|token|text| |id yes|yes]; cbn [react].
  - cbn. repeat split; [exact G|exact (text_same_store _ _ _ _ T)].
  - cbn -[trim]. repeat split.
    + intros E. apply Nat.eqb_neq in E.
      destruct (trim text); [contradiction|discriminate].
    + exact (text_same_store _ _ _ _ T).
  - cbn. repeat split; [exact G|exact (text_same_store _ _ _ _ T)].
  - unfold type_search, on_search_input. run_step.
    rewrite (updateDisplayedNotes_run Part000.card us n _ t H).
    cbn [fst snd dom with_notesHtml addBtnDisabled txtContent with_searchTxt].
    repeat split; [exact G|exact (text_same_store _ _ _ _ T)].
  - unfold click_add. run_step. destruct (addBtnDisabled d) eqn:D.
    + cbn [ret fst snd dom]. repeat split; [|exact T].
      rewrite D. discriminate.
    + pose proof (on_btn_add_note_click_run us n d t H) as R.
      cbn zeta in R. rewrite R. cbn [fst snd dom]. repeat split.
      * cbn. discriminate.
      * eapply (@text_append _ notes ls); [exact H|apply holds_store| |exact T].
        cbn [content]. exact (G eq_refl).
  - destruct yes.
    + unfold Part000.handleDeleteNoteLinkClick, Part000.deleteNote. run_step.
      pose proof (deleteNote_run Part000.card id us n d
                    (t ++ [EConfirm (js "Are you sure you want to delete this note?") true]) H) as R.
      cbn zeta in R. call R.
      rewrite (updateDeleteAllNotesButtonVisibility_run _ _ _ _ (holds_store _ ls)).
      cbn [fst snd dom]. repeat split; [exact G|].
      eapply (@text_filter (keeps id) notes ls);
        [exact H|apply holds_store|exact T].
    + cbn. repeat split; [exact G|exact (text_same_store _ _ _ _ T)].
  - destruct yes.
    + rewrite (on_btn_delete_all_notes_click_run ls us n d t).
      cbn [fst snd dom]. repeat split; [exact G|apply text_cleared].
    + cbn. repeat split; [exact G|exact (text_same_store _ _ _ _ T)].
Qed.

(** X20.  On the page of the second controller, from a page whose add button
    is enabled only over a content that is not blank: however the user
    goes on, every listener returns normally and no note with a blank
    content is ever stored. *)
Theorem session_never_stores_blank_content (actions : list action) :
  forall w,
    add_enabled_only_on_text w -> notes_have_text w ->
    eval (session actions) w = Ok tt
    /\ add_enabled_only_on_text (exec (session actions) w)
    /\ notes_have_text (exec (session actions) w).
Proof.
  induction actions as [|a actions IH]; intros w G T.
  - repeat split; assumption.
  - destruct (react_keeps_text a G T) as (E & G' & T').
    unfold eval, exec. rewrite (@session_cons a actions w E).
    apply IH; assumption.
Qed.

(* ================================================================== *)
(** ** The scripts never spoil the storage *)









(* ================================================================== *)
(** ** Opening the page *)

(** X16.  On a storage that holds [notes], the last lines of both scripts
    return normally, write nothing to the storage, and show [notes] under
    the search text the page opens with; [app.js] logs its welcome first,
    and the second controller sets its "delete all" button. *)
Theorem load_renders_the_store (notes : list Note) (w : World) :
  holds (localStorage w) notes ->
  (eval AppJs.on_load w = Ok tt
   /\ localStorage (exec AppJs.on_load w) = localStorage w
   /\ notesHtml (dom (exec AppJs.on_load w))
      = display AppJs.card (searchTxt (dom w)) notes
   /\ trace (exec AppJs.on_load w)
      = trace w ++ [ELog (js "Welcome to notes app. This is app.js")])
  /\ (eval Part000.on_load w = Ok tt
      /\ localStorage (exec Part000.on_load w) = localStorage w
      /\ notesHtml (dom (exec Part000.on_load w))
         = display Part000.card (searchTxt (dom w)) notes
      /\ delAllHidden (dom (exec Part000.on_load w))
         = Nat.eqb (List.length notes) 0
      /\ trace (exec Part000.on_load w) = trace w).
Proof.
  destruct w as [ls us n d t]. cbn [localStorage dom trace]. intros H.
  unfold eval, exec. split.
  - unfold AppJs.on_load, AppJs.updateDisplayedNotes. run_step.
    rewrite (updateDisplayedNotes_run AppJs.card us n d _ H).
    repeat split.
  - unfold Part000.on_load, Part000.updateDisplayedNotes.
    call (updateDisplayedNotes_run Part000.card us n d t H).
    rewrite (updateDeleteAllNotesButtonVisibility_run _ _ _ _ H).
    repeat split.
Qed.

Lemma load_renders_the_store_witness :
  holds (localStorage page_with_groceries) [groceries]
  /\ notesHtml (dom (exec Part000.on_load page_with_groceries))
     = Part000.card groceries
  /\ delAllHidden (dom (exec Part000.on_load page_with_groceries)) = false.
Proof.
  split; [exact page_with_groceries_holds|].
  destruct (@load_renders_the_store [groceries] page_with_groceries
              page_with_groceries_holds) as (_ & _ & _ & S & V & _).
  split; [exact S|exact V].
Defined.

(* ================================================================== *)
(** ** The further properties on the sample pages *)

Lemma sample_uuids_never_repeat : never_repeats sample_uuids.
Proof.
  intros i j E. unfold sample_uuids in E. apply app_inv_head in E.
  apply (f_equal (@List.length N)) in E. rewrite !repeat_length in E. exact E.
Defined.

Lemma fresh_page_add_disabled : add_enabled_only_on_text fresh_page.
Proof. intros D. discriminate D. Defined.

Lemma fresh_page_notes_have_text : notes_have_text fresh_page.
Proof.
  exists []. split; [|constructor].
  exists []. split; [reflexivity|constructor].
Defined.

Lemma fresh_page_ids_drawn : stored_ids_drawn fresh_page.
Proof.
  exists []. split; [|split; constructor].
  exists []. split; [reflexivity|constructor].
Defined.

Lemma fresh_page_button_hidden : delAll_shown_iff_notes fresh_page.
Proof.
  exists []. split.
  - exists []. split; [reflexivity|constructor].
  - cbn. split; [discriminate|congruence].
Defined.

Lemma getNotes_throws_on_corrupt_text_witness :
  parse (stored_text (localStorage page_with_corrupt_entry)) = None
  /\ getNotes page_with_corrupt_entry
     = (Throw SyntaxError, page_with_corrupt_entry).
Proof.
  assert (parse (stored_text (localStorage page_with_corrupt_entry)) = None)
    as H by (vm_compute; reflexivity).
  split; [exact H|].
  exact (@getNotes_throws_on_corrupt_text page_with_corrupt_entry H).
Defined.

Lemma getNotes_throws_on_non_array_witness :
  parse (stored_text (localStorage page_with_object_entry)) = Some (VObj [])
  /\ getNotes page_with_object_entry
     = (Throw TypeError, page_with_object_entry).
Proof.
  assert (parse (stored_text (localStorage page_with_object_entry))
          = Some (VObj [])) as H by (vm_compute; reflexivity).
  split; [exact H|].
  apply (@getNotes_throws_on_non_array page_with_object_entry (VObj []) H).
  intros elems E. discriminate E.
Defined.

Lemma readers_throw_before_writing_witness :
  parse (stored_text (localStorage page_with_corrupt_entry)) = None
  /\ deleteNote AppJs.card (js "note-") page_with_corrupt_entry
     = (Throw SyntaxError, page_with_corrupt_entry).
Proof.
  assert (parse (stored_text (localStorage page_with_corrupt_entry)) = None)
    as H by (vm_compute; reflexivity).
  split; [exact H|].
  destruct (@readers_throw_before_writing AppJs.card page_with_corrupt_entry H)
    as (_ & D & _).
  exact (D (js "note-")).
Defined.

Lemma fromObj_keeps_constructor_defaults_witness :
  own_properties (VObj [(js "title", VStr (js "tea"))])
  = Some [(js "title", VStr (js "tea"))]
  /\ eval (fromObj (VObj [(js "title", VStr (js "tea"))])) fresh_page
     = Ok (mkNote (js "note-") (js "tea") [] (js "white"))
  /\ uuid (mkNote (js "note-") (js "tea") [] (js "white"))
     = uuids fresh_page (drawn fresh_page)
  /\ color (mkNote (js "note-") (js "tea") [] (js "white")) = js "white".
Proof.
  assert (own_properties (VObj [(js "title", VStr (js "tea"))])
          = Some [(js "title", VStr (js "tea"))]) as P by reflexivity.
  assert (eval (fromObj (VObj [(js "title", VStr (js "tea"))])) fresh_page
          = Ok (mkNote (js "note-") (js "tea") [] (js "white"))) as E
    by reflexivity.
  split; [exact P|]. split; [exact E|].
  destruct (@fromObj_keeps_constructor_defaults _ _ _ fresh_page P E)
    as (U & _ & _ & C & _).
  split; [apply U; reflexivity|apply C; reflexivity].
Defined.

Lemma saveNewNote_appends_witness :
  holds (localStorage page_with_groceries) [groceries]
  /\ eval (saveNewNote chores ;; getNotes) page_with_groceries
     = Ok [groceries; chores].
Proof.
  split; [exact page_with_groceries_holds|].
  exact (proj1 (proj2 (@saveNewNote_appends chores [groceries]
                         page_with_groceries page_with_groceries_holds))).
Defined.

Lemma saveNewNote_then_deleteNote_witness :
  holds (localStorage page_with_groceries) [groceries]
  /\ Forall (fun stored => uuid stored <> uuid chores) [groceries]
  /\ eval (saveNewNote chores ;; deleteNote AppJs.card (uuid chores) ;;
           getNotes) page_with_groceries
     = Ok [groceries].
Proof.
  assert (Forall (fun stored => uuid stored <> uuid chores) [groceries]) as F.
  { constructor; [|constructor]. intros E. vm_compute in E. discriminate E. }
  split; [exact page_with_groceries_holds|]. split; [exact F|].
  exact (proj2 (@saveNewNote_then_deleteNote AppJs.card chores [groceries]
                  page_with_groceries page_with_groceries_holds) F).
Defined.


Lemma mutations_render_under_the_search_text_witness :
  holds (localStorage page_with_groceries) [groceries]
  /\ notesHtml (dom (exec (deleteNote Part000.card (js "note-"))
                          page_with_groceries))
     = placeholder.
Proof.
  split; [exact page_with_groceries_holds|].
  exact (proj1 (@mutations_render_under_the_search_text Part000.card
                  [groceries] page_with_groceries page_with_groceries_holds)
               (js "note-")).
Defined.

Lemma JSON_stringify_injective_witness :
  JSON_stringify [groceries] = JSON_stringify [groceries]
  /\ [groceries] = [groceries].
Proof.
  assert (JSON_stringify [groceries] = JSON_stringify [groceries]) as E
    by reflexivity.
  split; [exact E|]. exact (@JSON_stringify_injective _ _ E).
Defined.

Lemma app_session_keeps_rules_witness :
  never_repeats (uuids fresh_page)
  /\ add_enabled_only_on_text fresh_page
  /\ notes_have_text fresh_page
  /\ stored_ids_drawn fresh_page
  /\ eval (app_session [AppTypeTitle (js "Groceries");
                        AppTypeContent (js "milk, eggs"); AppClickAdd;
                        AppTypeContent (js "  "); AppClickAdd;
                        AppClickDeleteAll None]) fresh_page = Ok tt
  /\ notes_have_text
       (exec (app_session [AppTypeTitle (js "Groceries");
                           AppTypeContent (js "milk, eggs"); AppClickAdd;
                           AppTypeContent (js "  "); AppClickAdd;
                           AppClickDeleteAll None]) fresh_page).
Proof.
  split; [exact sample_uuids_never_repeat|].
  split; [exact fresh_page_add_disabled|].
  split; [exact fresh_page_notes_have_text|].
  split; [exact fresh_page_ids_drawn|].
  destruct (@app_session_keeps_rules
              [AppTypeTitle (js "Groceries");
               AppTypeContent (js "milk, eggs"); AppClickAdd;
               AppTypeContent (js "  "); AppClickAdd;
               AppClickDeleteAll None] fresh_page
              sample_uuids_never_repeat fresh_page_add_disabled
              fresh_page_notes_have_text fresh_page_ids_drawn)
    as (E & _ & T & _).
  split; [exact E|exact T].
Defined.

Lemma session_never_stores_blank_content_witness :
  add_enabled_only_on_text fresh_page
  /\ notes_have_text fresh_page
  /\ notes_have_text
       (exec (session [TypeContent (js "milk, eggs"); ClickAdd;
                       TypeContent (js "  "); ClickAdd]) fresh_page).
Proof.
  split; [exact fresh_page_add_disabled|].
  split; [exact fresh_page_notes_have_text|].
  exact (proj2 (proj2 (@session_never_stores_blank_content
                         [TypeContent (js "milk, eggs"); ClickAdd;
                          TypeContent (js "  "); ClickAdd] fresh_page
                         fresh_page_add_disabled fresh_page_notes_have_text))).
Defined.

Lemma session_keeps_rules_witness :
  delAll_shown_iff_notes fresh_page
  /\ add_enabled_only_on_text fresh_page
  /\ delAll_shown_iff_notes
       (exec (session [TypeContent (js "milk, eggs"); ClickAdd;
                       ClickDeleteLink (js "note-") false;
                       ClickDeleteAll true]) fresh_page).
Proof.
  split; [exact fresh_page_button_hidden|].
  split; [exact fresh_page_add_disabled|].
  exact (proj1 (proj2 (@session_keeps_rules
                         [TypeContent (js "milk, eggs"); ClickAdd;
                          ClickDeleteLink (js "note-") false;
                          ClickDeleteAll true] fresh_page
                         fresh_page_button_hidden fresh_page_add_disabled))).
Defined.

Lemma session_keeps_ids_witness :
  never_repeats (uuids fresh_page)
  /\ stored_ids_drawn fresh_page
  /\ stored_ids_drawn
       (exec (session [TypeContent (js "milk, eggs"); ClickAdd;
                       TypeContent (js "bread"); ClickAdd]) fresh_page).
Proof.
  split; [exact sample_uuids_never_repeat|].
  split; [exact fresh_page_ids_drawn|].
  exact (proj2 (@session_keeps_ids
                  [TypeContent (js "milk, eggs"); ClickAdd;
                   TypeContent (js "bread"); ClickAdd] fresh_page
                  sample_uuids_never_repeat fresh_page_ids_drawn)).
Defined.
